(** * Fraud-detection pipeline: normalizer, rule scorer and alert filter

    A shallow embedding of three JavaScript classes of the ML service and
    of the handler that chains them:

    - [DataPreprocessor]     (cleanData, cleanRow and the normalize* helpers;
                              in [Features]: engineerFeatures, the statistics,
                              writeCSV and preprocessCSV),
    - [FraudDetectionModel]  (ruleBasedPrediction, getRiskLevel),
    - [DatabaseService]      (the documents built by saveTransactions; in
                              [AlertStats]: the alert counts of
                              getTransactionStats),
    - [Service]              (the /process-csv handler of index.js).

    Modelling conventions.

    - A JavaScript number is a [jsnum]: NaN, the two infinities, or a finite
      value carried as an exact rational.  IEEE-754 rounding of the finite
      values is not modelled; the decimal constants of the rule set are the
      rationals they denote.
    - A field of an input row holds a string or a number ([jsval]); a field
      that is absent reads as [None] (JavaScript's undefined).
    - Built-ins whose behaviour belongs to the host ([parseFloat], the
      rendering of a number, [Date]) are the fields of the class [Host]; the
      theorems hold for every host.  A concrete decimal host, [decHost], is
      used to run the code on examples.
    - Every use of the clock or of [Math.random] reads a field of an
      [Oracle]; the i-th call of a per-row function receives the oracle
      [os i].
    - [AmountText] is no code of the service: it spells out the word
      numeric of the specification, to be compared with the test that
      normalizeAmount makes. *)

From Stdlib Require Import QArith Qround Qminmax Qabs Lqa Lia ZArith String Ascii List Bool.
From stdpp Require Import gmap strings pretty.
Import ListNotations.

Local Open Scope string_scope.

(** ** JavaScript values *)

Module JS.

Inductive jsnum : Type :=
| NaN
| Fin (q : Q)
| PosInf
| NegInf.

Inductive jsval : Type :=
| VStr (s : string)
| VNum (n : jsnum).

(** A computation that may throw (a TypeError, here). *)
Inductive result (A : Type) : Type :=
| Ok (a : A)
| Throw.
Arguments Ok {A} a.
Arguments Throw {A}.

Definition Qltb (x y : Q) : bool := negb (Qle_bool y x).

(** The relational operators [<], [>], [<=], [>=] on numbers: every
    comparison with NaN is false. *)
Definition js_lt (a b : jsnum) : bool :=
  match a, b with
  | NaN, _ | _, NaN => false
  | Fin x, Fin y => Qltb x y
  | NegInf, NegInf => false
  | NegInf, _ => true
  | _, NegInf => false
  | PosInf, _ => false
  | Fin _, PosInf => true
  end.

Definition js_le (a b : jsnum) : bool :=
  match a, b with
  | NaN, _ | _, NaN => false
  | Fin x, Fin y => Qle_bool x y
  | NegInf, _ => true
  | _, NegInf => false
  | _, PosInf => true
  | PosInf, Fin _ => false
  end.

Definition js_gt (a b : jsnum) : bool := js_lt b a.
Definition js_ge (a b : jsnum) : bool := js_le b a.

Definition isNaN (a : jsnum) : bool :=
  match a with NaN => true | _ => false end.

(** Truthiness of a number: everything but 0 and NaN. *)
Definition num_truthy (a : jsnum) : bool :=
  match a with
  | NaN => false
  | Fin q => negb (Qeq_bool q 0)
  | PosInf | NegInf => true
  end.

(** [a % m === 0] for a finite non-zero modulus [m]: the remainder of a
    finite [a] is zero exactly when [a / m] is an integer; the remainder of
    NaN or of an infinity is NaN. *)
Definition rem_is_zero (a : jsnum) (m : Q) : bool :=
  match a with
  | Fin q => Qeq_bool (inject_Z (Qfloor (q / m))) (q / m)
  | _ => false
  end.

(** Truthiness of a value read from an object ([None] is undefined). *)
Definition truthy (v : option jsval) : bool :=
  match v with
  | None => false
  | Some (VStr s) => negb (String.eqb s "")
  | Some (VNum n) => num_truthy n
  end.

(** [typeof v === 'number'] *)
Definition is_number (v : option jsval) : bool :=
  match v with
  | Some (VNum _) => true
  | _ => false
  end.

(** [a || b] *)
Definition or_else (a b : option jsval) : option jsval :=
  if truthy a then a else b.

(** *** Strings (ASCII) *)

Definition is_upper (c : ascii) : bool :=
  let n := nat_of_ascii c in (65 <=? n)%nat && (n <=? 90)%nat.

Definition is_lower (c : ascii) : bool :=
  let n := nat_of_ascii c in (97 <=? n)%nat && (n <=? 122)%nat.

Definition is_space (c : ascii) : bool :=
  let n := nat_of_ascii c in ((9 <=? n)%nat && (n <=? 13)%nat) || (n =? 32)%nat.

Definition lower_char (c : ascii) : ascii :=
  if is_upper c then ascii_of_nat (nat_of_ascii c + 32) else c.

Fixpoint map_string (f : ascii -> ascii) (s : string) : string :=
  match s with
  | EmptyString => EmptyString
  | String c r => String (f c) (map_string f r)
  end.

Fixpoint filter_string (keep : ascii -> bool) (s : string) : string :=
  match s with
  | EmptyString => EmptyString
  | String c r => if keep c then String c (filter_string keep r) else filter_string keep r
  end.

Definition toLowerCase (s : string) : string := map_string lower_char s.

Fixpoint trimStart (s : string) : string :=
  match s with
  | String c r => if is_space c then trimStart r else s
  | EmptyString => EmptyString
  end.

(** Drops the trailing white space: a character is kept when something
    that is kept follows it, or when it is not white space itself. *)
Fixpoint trimEnd (s : string) : string :=
  match s with
  | EmptyString => EmptyString
  | String c r =>
      match trimEnd r with
      | EmptyString => if is_space c then EmptyString else String c EmptyString
      | r' => String c r'
      end
  end.

Definition trim (s : string) : string := trimEnd (trimStart s).

(** [s.replace(/[,$]/g, '')] *)
Definition strip_currency (s : string) : string :=
  filter_string (fun c => negb (Ascii.eqb c ","%char || Ascii.eqb c "$"%char)) s.

(** [s.replace(/[^a-z]/g, '_')] *)
Definition underscore_non_lower (s : string) : string :=
  map_string (fun c => if is_lower c then c else "_"%char) s.

(** [arr.includes(s)] on an array of strings *)
Definition includes (l : list string) (s : string) : bool :=
  existsb (String.eqb s) l.

End JS.
Export JS.

(** ** Host built-ins and the sources of non-determinism *)

Class Host : Type := {
  (** [parseFloat(s)] *)
  parseFloat : string -> jsnum;
  (** [String(n)] and [n.toString()] for a number [n] *)
  numToString : jsnum -> string;
  (** [new Date(v)]: [None] when the date is invalid ([getTime()] is NaN),
      otherwise its [toISOString()] *)
  dateToISO : jsval -> option string;
  (** [new Date(s).getHours()], NaN for an invalid date *)
  getHours : string -> jsnum
}.

Record Oracle : Type := {
  (** [Date.now()], rendered in a template string *)
  dateNow : string;
  (** the base-36 digits of [Math.random().toString(36).substr(2, n)] *)
  randDigits : list nat;
  (** [Math.floor(Math.random() * 10000)], rendered *)
  randUser : string;
  (** [new Date().toISOString()] *)
  nowISO : string;
  (** [new Date(Date.now()).getHours()] *)
  nowHours : jsnum;
  (** [Math.random()] of the scoring rule *)
  random : Q
}.

(** A digit in base 36, as [toString(36)] writes it: 0-9, then a-z. *)
Definition base36 (d : nat) : ascii :=
  let k := (d mod 36)%nat in
  if (k <? 10)%nat then ascii_of_nat (48 + k) else ascii_of_nat (87 + k).

(** [Math.random().toString(36).substr(2, n)] *)
Definition randSuffix (o : Oracle) : string :=
  string_of_list_ascii (map base36 (randDigits o)).

(** [String(v)] / [v.toString()] *)
Definition toStr `{Host} (v : jsval) : string :=
  match v with
  | VStr s => s
  | VNum n => numToString n
  end.

(** [v.toLowerCase()]: numbers have no such method. *)
Definition lowerOf (v : jsval) : result string :=
  match v with
  | VStr s => Ok (toLowerCase s)
  | VNum _ => Throw
  end.

(** ** fraudDetectionModel.js *)

Module FraudDetectionModel.

Local Open Scope Q_scope.

Inductive RiskLevel : Type := LOW | MEDIUM | HIGH.

(** The fields of an input row that [ruleBasedPrediction] reads.  A flag
    field is its truthiness; an empty [Transaction_ID] or [Timestamp] stands
    for a falsy one. *)
Module Row.
Record t : Type := {
  Transaction_ID : string;
  Amount : jsnum;
  Is_Night_Transaction : bool;
  Hour_of_Day : jsnum;
  Category : string;
  Is_Foreign : bool;
  Payment_Method : string;
  Timestamp : string
}.
End Row.

Record Prediction : Type := {
  Transaction_ID : string;
  ml_pred_prob : Q;
  fraud_flag : Z;
  risk_level : RiskLevel;
  reason : string
}.

(** The pair of the two locals [fraudScore] and [reasons]. *)
Definition Acc : Type := (Q * list string)%type.

(** [fraudScore += w; reasons.push(msg)] *)
Definition fire (w : Q) (msg : string) (s : Acc) : Acc :=
  (fst s + w, (snd s ++ [msg])%list).

Definition amountRule (a : jsnum) (s : Acc) : Acc :=
  if js_gt a (Fin 1000) then fire 0.6 "High transaction amount (>$1000)" s
  else if js_gt a (Fin 500) then fire 0.4 "Medium transaction amount (>$500)" s
  else if js_gt a (Fin 100) then fire 0.2 "Above average amount (>$100)" s
  else s.

Definition nightRule (night : bool) (h : jsnum) (s : Acc) : Acc :=
  if night || (js_ge h (Fin 22) || js_le h (Fin 6))
  then fire 0.3 "Night time transaction (high risk)" s
  else s.

Definition categoryRule (c : string) (s : Acc) : Acc :=
  if String.eqb c "ATM" then fire 0.4 "ATM transaction (very high risk)" s
  else if String.eqb c "Online" || String.eqb c "E-commerce"
       then fire 0.3 "Online/E-commerce transaction (high risk)" s
  else if String.eqb c "Gas" || String.eqb c "Food"
       then fire 0.1 "Common fraud category" s
  else s.

Definition foreignRule (f : bool) (s : Acc) : Acc :=
  if f then fire 0.4 "Foreign transaction (very high risk)" s else s.

Definition paymentRule (p : string) (s : Acc) : Acc :=
  if String.eqb p "digital_wallet" then fire 0.2 "Digital wallet payment (higher risk)" s
  else if String.eqb p "credit_card" then fire 0.15 "Credit card transaction" s
  else s.

Definition earlyRule (hour : jsnum) (s : Acc) : Acc :=
  if js_ge hour (Fin 0) && js_le hour (Fin 7)
  then fire 0.25 "Very early morning transaction" s
  else s.

Definition roundRule (a : jsnum) (s : Acc) : Acc :=
  if num_truthy a && rem_is_zero a 100
  then fire 0.1 "Round number amount (suspicious pattern)" s
  else s.

Section Model.
Context `{Host}.

(** [new Date(row.Timestamp || Date.now()).getHours()] *)
Definition hourOf (o : Oracle) (row : Row.t) : jsnum :=
  if String.eqb (Row.Timestamp row) "" then nowHours o
  else getHours (Row.Timestamp row).

(** The locals [fraudScore] and [reasons] just before the random term is
    added: the rules run in the order of the source. *)
Definition rules (o : Oracle) (row : Row.t) : Acc :=
  let s := (0.2, []) in
  let s := amountRule (Row.Amount row) s in
  let s := nightRule (Row.Is_Night_Transaction row) (Row.Hour_of_Day row) s in
  let s := categoryRule (Row.Category row) s in
  let s := foreignRule (Row.Is_Foreign row) s in
  let s := paymentRule (Row.Payment_Method row) s in
  let s := earlyRule (hourOf o row) s in
  roundRule (Row.Amount row) s.

Definition baseScore (o : Oracle) (row : Row.t) : Q := fst (rules o row).
Definition reasons (o : Oracle) (row : Row.t) : list string := snd (rules o row).

(** [fraudScore] after [fraudScore += Math.random() * 0.3] *)
Definition fraudScore (o : Oracle) (row : Row.t) : Q :=
  baseScore o row + random o * 0.3.

(** [Math.max(0.1, Math.min(1, fraudScore))] *)
Definition fraudProb (o : Oracle) (row : Row.t) : Q :=
  Qmax 0.1 (Qmin 1 (fraudScore o row)).

End Model.

(** [parseFloat(x.toFixed(4))]: the nearest multiple of 1/10000, the larger
    one on a tie (of the magnitude, the sign being put back). *)
Definition toFixed4 (x : Q) : Q :=
  if Qltb x 0
  then - (inject_Z (Qfloor (- x * 10000 + (1 # 2))) / 10000)
  else inject_Z (Qfloor (x * 10000 + (1 # 2))) / 10000.

Definition getRiskLevel (p : Q) : RiskLevel :=
  if Qle_bool 0.5 p then HIGH
  else if Qle_bool 0.3 p then MEDIUM
  else LOW.

Section Predict.
Context `{Host}.

(** One iteration of the [data.map] callback. *)
Definition predictRow (o : Oracle) (row : Row.t) : Prediction :=
  let tid := if String.eqb (Row.Transaction_ID row) ""
             then "TXN-" ++ dateNow o ++ "-" ++ randSuffix o
             else Row.Transaction_ID row in
  let p := fraudProb o row in
  {| Transaction_ID := tid;
     ml_pred_prob := toFixed4 p;
     fraud_flag := if Qltb 0.3 p then 1%Z else 0%Z;
     risk_level := getRiskLevel p;
     reason := match reasons o row with
               | [] => "Baseline fraud risk detected"
               | rs => String.concat ", " rs
               end |}.

Definition ruleBasedPrediction (os : nat -> Oracle) (data : list Row.t)
  : list Prediction :=
  imap (fun i row => predictRow (os i) row) data.

End Predict.

(** The row with another amount, every other field kept. *)
Definition withAmount (a : jsnum) (row : Row.t) : Row.t :=
  {| Row.Transaction_ID := Row.Transaction_ID row;
     Row.Amount := a;
     Row.Is_Night_Transaction := Row.Is_Night_Transaction row;
     Row.Hour_of_Day := Row.Hour_of_Day row;
     Row.Category := Row.Category row;
     Row.Is_Foreign := Row.Is_Foreign row;
     Row.Payment_Method := Row.Payment_Method row;
     Row.Timestamp := Row.Timestamp row |}.

End FraudDetectionModel.

(** ** dataPreprocessor.js *)

Module DataPreprocessor.

(** An input row: a JavaScript object read by property name. *)
Abbreviation RawRow := (gmap string jsval).

Record CleanedRow : Type := {
  Transaction_ID : string;
  Amount : jsnum;
  Merchant : jsval;
  Category : string;
  User_ID : jsval;
  Timestamp : string;
  Location : jsval;
  Payment_Method : string
}.

Definition validCategories : list string :=
  ["E-commerce"; "Retail"; "Gas"; "Food"; "ATM"; "Online"; "Other"].

Definition validMethods : list string :=
  ["credit_card"; "debit_card"; "bank_transfer"; "digital_wallet"; "other"].

(** [v === s] for a string literal [s] *)
Definition is_str (v : option jsval) (s : string) : bool :=
  match v with
  | Some (VStr t) => String.eqb t s
  | _ => false
  end.

Definition isEmpty (value : option jsval) : bool :=
  match value with
  | None => true
  | Some (VStr s) =>
      String.eqb s "" || String.eqb (trim s) "" ||
      String.eqb s "null" || String.eqb s "NULL" ||
      String.eqb s "N/A" || String.eqb s "n/a"
  | Some (VNum _) => false
  end.

(** [v || 'literal'] *)
Definition or_default (v : option jsval) (d : string) : jsval :=
  match v with
  | Some x => if truthy v then x else VStr d
  | None => VStr d
  end.

Definition isValidRow (row : RawRow) : bool :=
  let hasTransactionId :=
    or_else (row !! "Transaction_ID")
      (or_else (row !! "TransactionID")
         (or_else (row !! "transaction_id") (row !! "id"))) in
  let hasAmount := or_else (row !! "Amount") (row !! "amount") in
  truthy hasTransactionId && truthy hasAmount && negb (isEmpty hasAmount).

(** The amount as [normalizeAmount] reads it. *)
Definition amountField (row : RawRow) : option jsval :=
  or_else (row !! "Amount") (or_else (row !! "amount") (row !! "AMOUNT")).

Definition categoryField (row : RawRow) : option jsval :=
  or_else (row !! "Category")
    (or_else (row !! "category")
       (or_else (row !! "CATEGORY") (row !! "merchant_category"))).

Definition methodField (row : RawRow) : option jsval :=
  or_else (row !! "Payment_Method")
    (or_else (row !! "payment_method")
       (or_else (row !! "PaymentMethod") (row !! "card_type"))).

Section Normalizer.
Context `{Host}.

(** [String(v)] of a value that may be undefined *)
Definition String_of (v : option jsval) : string :=
  match v with
  | Some x => toStr x
  | None => "undefined"
  end.

Definition normalizeTransactionId (o : Oracle) (row : RawRow) : string :=
  let id :=
    or_else (row !! "Transaction_ID")
      (or_else (row !! "TransactionID")
         (or_else (row !! "transaction_id") (row !! "id"))) in
  if truthy id && negb (String.eqb (trim (String_of id)) "") &&
     negb (is_str id "null") && negb (is_str id "undefined")
  then trim (String_of id)
  else "TXN-" ++ dateNow o ++ "-" ++ randSuffix o.

(** The number that [normalizeAmount] tests: the amount text without
    commas and dollar signs, parsed. *)
Definition parsedAmount (row : RawRow) : jsnum :=
  parseFloat (strip_currency (String_of (amountField row))).

(** [None] is the source's null. *)
Definition normalizeAmount (row : RawRow) : option jsnum :=
  let amount := amountField row in
  if isEmpty amount then None
  else
    let numAmount := parseFloat (strip_currency (String_of amount)) in
    if isNaN numAmount || js_le numAmount (Fin 0) then None else Some numAmount.

Definition normalizeMerchant (row : RawRow) : jsval :=
  or_default
    (or_else (row !! "Merchant")
       (or_else (row !! "merchant")
          (or_else (row !! "MERCHANT") (row !! "merchant_name"))))
    "Unknown Merchant".

Definition normalizeCategory (row : RawRow) : result string :=
  let category := categoryField row in
  match category with
  | Some v =>
      if truthy category then
        match lowerOf v with
        | Throw => Throw
        | Ok lc =>
            match find (fun cat => String.eqb (toLowerCase cat) lc) validCategories with
            | Some matchedCategory =>
                Ok (if String.eqb matchedCategory "" then "Other" else matchedCategory)
            | None => Ok "Other"
            end
        end
      else Ok "Other"
  | None => Ok "Other"
  end.

Definition normalizeUserId (o : Oracle) (row : RawRow) : jsval :=
  or_default
    (or_else (row !! "User_ID")
       (or_else (row !! "UserID")
          (or_else (row !! "user_id") (row !! "customer_id"))))
    ("USER-" ++ randUser o).

Definition normalizeTimestamp (o : Oracle) (row : RawRow) : string :=
  let timestamp :=
    or_else (row !! "Timestamp")
      (or_else (row !! "timestamp")
         (or_else (row !! "date")
            (or_else (row !! "Date") (row !! "transaction_date")))) in
  match timestamp with
  | Some v =>
      if truthy timestamp then
        match dateToISO v with
        | Some iso => iso
        | None => nowISO o
        end
      else nowISO o
  | None => nowISO o
  end.

Definition normalizeLocation (row : RawRow) : jsval :=
  or_default
    (or_else (row !! "Location")
       (or_else (row !! "location")
          (or_else (row !! "LOCATION") (row !! "city"))))
    "Unknown".

Definition normalizePaymentMethod (row : RawRow) : result string :=
  let method := methodField row in
  match method with
  | Some v =>
      if truthy method then
        match lowerOf v with
        | Throw => Throw
        | Ok lm =>
            let normalizedMethod := underscore_non_lower lm in
            Ok (if includes validMethods normalizedMethod
                then normalizedMethod else "other")
        end
      else Ok "credit_card"
  | None => Ok "credit_card"
  end.

(** [None] is the source's null: a helper threw (the catch clause), or
    the identifier or the amount of the cleaned row is falsy. *)
Definition cleanRow (o : Oracle) (row : RawRow) : option CleanedRow :=
  let tid := normalizeTransactionId o row in
  let amount := normalizeAmount row in
  let merchant := normalizeMerchant row in
  match normalizeCategory row with
  | Throw => None
  | Ok category =>
      let user := normalizeUserId o row in
      let timestamp := normalizeTimestamp o row in
      let location := normalizeLocation row in
      match normalizePaymentMethod row with
      | Throw => None
      | Ok method =>
          if String.eqb tid "" then None
          else
            match amount with
            | None => None
            | Some a =>
                if negb (num_truthy a) then None
                else Some {| Transaction_ID := tid; Amount := a;
                             Merchant := merchant; Category := category;
                             User_ID := user; Timestamp := timestamp;
                             Location := location; Payment_Method := method |}
            end
      end
  end.

(** [data.filter(isValidRow).map(cleanRow).filter(row => row !== null)] *)
Definition cleanData (os : nat -> Oracle) (data : list RawRow) : list CleanedRow :=
  omap id (imap (fun i row => cleanRow (os i) row) (List.filter isValidRow data)).

End Normalizer.

(** A cleaned row as the object it is, to be read again by property name. *)
Definition rowOf (c : CleanedRow) : RawRow :=
  <["Transaction_ID" := VStr (Transaction_ID c)]>
  (<["Amount" := VNum (Amount c)]>
  (<["Merchant" := Merchant c]>
  (<["Category" := VStr (Category c)]>
  (<["User_ID" := User_ID c]>
  (<["Timestamp" := VStr (Timestamp c)]>
  (<["Location" := Location c]>
  (<["Payment_Method" := VStr (Payment_Method c)]> ∅))))))).

End DataPreprocessor.

(** ** databaseService.js *)

Module DatabaseService.

Import FraudDetectionModel.

(** A document handed to the collection: an object read by key.  A
    [Date] is carried as its ISO rendering. *)
Abbreviation Doc := (gmap string jsval).

Definition riskName (r : RiskLevel) : string :=
  match r with
  | LOW => "LOW"
  | MEDIUM => "MEDIUM"
  | HIGH => "HIGH"
  end.

(** [pred.risk_level === 'HIGH' || pred.fraud_flag === 1] *)
Definition isAlert (pred : Prediction) : bool :=
  String.eqb (riskName (risk_level pred)) "HIGH" || Z.eqb (fraud_flag pred) 1.

(** The object literal of the [map] callback of [alertDocs]. *)
Definition alertDoc (o : Oracle) (pred : Prediction) : Doc :=
  <["Transaction_ID" := VStr (Transaction_ID pred)]>
  (<["risk_level" := VStr (riskName (risk_level pred))]>
  (<["reason" := VStr (reason pred)]>
  (<["created_at" := VStr (nowISO o)]>
  (<["updated_at" := VStr (nowISO o)]> ∅)))).

(** [predictions.filter(...).map(...).filter(doc => doc.Transaction_ID)] *)
Definition alertDocs (os : nat -> Oracle) (predictions : list Prediction) : list Doc :=
  List.filter (fun doc => truthy (doc !! "Transaction_ID"))
    (imap (fun i pred => alertDoc (os i) pred) (List.filter isAlert predictions)).

(** The object literal of the [map] callback of [transactionDocs]. *)
Definition transactionDoc (o : Oracle) (pred : Prediction) : Doc :=
  <["Transaction_ID" := VStr (Transaction_ID pred)]>
  (<["ml_pred_prob" := VNum (Fin (ml_pred_prob pred))]>
  (<["fraud_flag" := VNum (Fin (inject_Z (fraud_flag pred)))]>
  (<["risk_level" := VStr (riskName (risk_level pred))]>
  (<["reason" := VStr (reason pred)]>
  (<["created_at" := VStr (nowISO o)]>
  (<["updated_at" := VStr (nowISO o)]> ∅)))))).

(** [predictions.map(...).filter(doc => doc.Transaction_ID)] *)
Definition transactionDocs (os : nat -> Oracle) (predictions : list Prediction)
  : list Doc :=
  List.filter (fun doc => truthy (doc !! "Transaction_ID"))
    (imap (fun i pred => transactionDoc (os i) pred) predictions).

(** What [saveTransactions] hands to the two collections (by [insertMany],
    or one by one with [replaceOne] and upsert after a duplicate-key
    error): the transaction documents and the alert documents. *)
Definition saveTransactions (os : nat -> Oracle) (predictions : list Prediction)
  : list Doc * list Doc :=
  (transactionDocs os predictions, alertDocs os predictions).

End DatabaseService.

(** ** A concrete host for running the code

    Decimal text for numbers, ISO-8601 UTC text for dates, and UTC as the
    local time zone.  It agrees with a JavaScript engine on the inputs of
    the examples below: decimal literals (with an optional fraction and
    exponent) for [parseFloat], amounts with a short decimal expansion for
    the rendering, and timestamps in the form that [toISOString] emits. *)

Module DecimalHost.

Definition digit_of (c : ascii) : option Z :=
  let n := nat_of_ascii c in
  if (48 <=? n)%nat && (n <=? 57)%nat then Some (Z.of_nat (n - 48)) else None.

(** Reads a run of decimal digits: its value, its length, what follows. *)
Fixpoint read_digits (s : string) (acc : Z) (cnt : nat) : Z * nat * string :=
  match s with
  | String c r =>
      match digit_of c with
      | Some d => read_digits r (acc * 10 + d) (S cnt)
      | None => (acc, cnt, s)
      end
  | EmptyString => (acc, cnt, s)
  end.

Definition read_sign (s : string) : bool * string :=
  match s with
  | String "-" r => (true, r)
  | String "+" r => (false, r)
  | _ => (false, s)
  end.

Definition read_exponent (s : string) : Z :=
  match s with
  | String c r =>
      if Ascii.eqb c "e" || Ascii.eqb c "E" then
        let '(neg, r) := read_sign r in
        let '(e, cnt, _) := read_digits r 0 0 in
        if (cnt =? 0)%nat then 0%Z else if neg then (- e)%Z else e
      else 0%Z
  | EmptyString => 0%Z
  end.

Definition parseFloat_dec (s : string) : jsnum :=
  let '(neg, s) := read_sign (trimStart s) in
  if String.prefix "Infinity" s then (if neg then NegInf else PosInf)
  else
    let '(ip, ic, s1) := read_digits s 0 0 in
    let '(m, fc, s2) :=
      match s1 with
      | String "." r => read_digits r ip 0
      | _ => (ip, 0%nat, s1)
      end in
    if (ic + fc =? 0)%nat then NaN
    else
      let e := (read_exponent s2 - Z.of_nat fc)%Z in
      let q := (inject_Z m * Qpower 10 e)%Q in
      Fin (Qred (if neg then - q else q)).

(** The digits after the decimal point of [q] in [0, 1), at most [fuel]. *)
Fixpoint fraction_digits (fuel : nat) (q : Q) : string :=
  match fuel with
  | O => ""
  | S fuel' =>
      if Qeq_bool q 0 then ""
      else
        let d := Qfloor (q * 10) in
        pretty d ++ fraction_digits fuel' (Qred (q * 10 - inject_Z d))
  end.

Definition numToString_dec (n : jsnum) : string :=
  match n with
  | NaN => "NaN"
  | PosInf => "Infinity"
  | NegInf => "-Infinity"
  | Fin q =>
      let a := Qabs q in
      let ip := Qfloor a in
      let fr := fraction_digits 20 (Qred (a - inject_Z ip)) in
      (if Qltb q 0 then "-" else "") ++ pretty ip ++
      (if String.eqb fr "" then "" else "." ++ fr)
  end.

(** Does [s] have the shape of [mask], a [d] of the mask standing for any
    decimal digit? *)
Fixpoint has_shape (mask s : string) : bool :=
  match mask, s with
  | EmptyString, EmptyString => true
  | String m mr, String c cr =>
      (if Ascii.eqb m "d" then match digit_of c with Some _ => true | None => false end
       else Ascii.eqb m c)
      && has_shape mr cr
  | _, _ => false
  end.

Definition is_iso (s : string) : bool := has_shape "dddd-dd-ddTdd:dd:dd.dddZ" s.

Definition dateToISO_dec (v : jsval) : option string :=
  match v with
  | VStr s => if is_iso s then Some s else None
  | VNum _ => None
  end.

Definition getHours_dec (s : string) : jsnum :=
  if is_iso s then
    let '(h, _, _) := read_digits (String.substring 11 2 s) 0 0 in Fin (inject_Z h)
  else NaN.

#[export] Instance decHost : Host := {
  parseFloat := parseFloat_dec;
  numToString := numToString_dec;
  dateToISO := dateToISO_dec;
  getHours := getHours_dec
}.

(** A fixed outcome of the clock and of the generator; [u] is the value of
    [Math.random()] in the scoring rule. *)
Definition oracle (u : Q) : Oracle :=
  {| dateNow := "1700000000000";
     randDigits := [20; 3; 19; 9; 33; 2; 10; 11]%nat;
     randUser := "4711";
     nowISO := "2023-11-14T22:13:20.000Z";
     nowHours := Fin 22;
     random := u |}.

End DecimalHost.

(** ** The word numeric

    The specification rejects an amount that is non-numeric.  Read by these
    words alone, an amount text is numeric when it is a decimal numeral from
    its first to its last character: an optional sign, then digits with at
    most one decimal point.  The code asks less of it: [parseFloat] is
    content with a numeral at the start of the text.  This definition follows
    the words, to be compared with the test of [normalizeAmount]. *)

Module AmountText.

Import DecimalHost.

(** Digits with at most one decimal point, and nothing else. *)
Definition unsigned_numeral (s : string) : bool :=
  let '(_, ic, s1) := read_digits s 0 0 in
  match s1 with
  | EmptyString => negb (ic =? 0)%nat
  | String "." r =>
      let '(_, fc, s2) := read_digits r 0 0 in
      String.eqb s2 "" && negb (ic + fc =? 0)%nat
  | _ => false
  end.

Definition numeric_text (s : string) : bool :=
  let '(_, s) := read_sign s in unsigned_numeral s.

End AmountText.

(** ** Sample inputs *)

Module Samples.

Import FraudDetectionModel.

(** Amount 1500 at an ATM abroad, paid by credit card at 23:10. *)
Definition atm_night : Row.t :=
  {| Row.Transaction_ID := "T-1001";
     Row.Amount := Fin 1500;
     Row.Is_Night_Transaction := true;
     Row.Hour_of_Day := Fin 23;
     Row.Category := "ATM";
     Row.Is_Foreign := true;
     Row.Payment_Method := "credit_card";
     Row.Timestamp := "2024-03-05T23:10:00.000Z" |}.

(** The same purchase at 03:10. *)
Definition atm_early : Row.t :=
  {| Row.Transaction_ID := "T-1002";
     Row.Amount := Fin 1500;
     Row.Is_Night_Transaction := true;
     Row.Hour_of_Day := Fin 3;
     Row.Category := "ATM";
     Row.Is_Foreign := true;
     Row.Payment_Method := "credit_card";
     Row.Timestamp := "2024-03-05T03:10:00.000Z" |}.

(** A small domestic purchase at noon: no rule fires. *)
Definition quiet : Row.t :=
  {| Row.Transaction_ID := "T-2001";
     Row.Amount := Fin 50;
     Row.Is_Night_Transaction := false;
     Row.Hour_of_Day := Fin 12;
     Row.Category := "Retail";
     Row.Is_Foreign := false;
     Row.Payment_Method := "bank_transfer";
     Row.Timestamp := "2024-03-05T12:00:00.000Z" |}.

Import DataPreprocessor DatabaseService.

(** A well-formed CSV row, with its amount in currency notation. *)
Definition raw_atm : RawRow :=
  <["Transaction_ID" := VStr " T-1001 "]>
  (<["Amount" := VStr "$1,500.00"]>
  (<["Merchant" := VStr "Cash Point"]>
  (<["Category" := VStr "atm"]>
  (<["User_ID" := VStr "U-7"]>
  (<["Timestamp" := VStr "2024-03-05T23:10:00.000Z"]>
  (<["Location" := VStr "Paris"]>
  (<["Payment_Method" := VStr "Credit Card"]> ∅))))))).

(** A row with an identifier and an amount only. *)
Definition raw_minimal : RawRow :=
  <["Transaction_ID" := VStr "T-2"]> (<["Amount" := VStr "20"]> ∅).

(** A free-text category and payment method. *)
Definition raw_crypto : RawRow :=
  <["id" := VStr "T-3"]>
  (<["amount" := VStr "75.5"]>
  (<["category" := VStr "Crypto"]>
  (<["card_type" := VStr "Bitcoin"]> ∅))).

Definition raw_bad_amount : RawRow :=
  <["Transaction_ID" := VStr "T-4"]> (<["Amount" := VStr "abc"]> ∅).





(** The identifier is the word null between two blanks. *)
Definition raw_null_id : RawRow :=
  <["Transaction_ID" := VStr " null "]> (<["Amount" := VStr "5"]> ∅).

(** A payment method given as a number. *)
Definition raw_numeric_method : RawRow :=
  <["Transaction_ID" := VStr "T-8"]>
  (<["Amount" := VStr "20"]>
  (<["Payment_Method" := VNum (Fin 4)]> ∅)).

(** What the normalizer makes of [raw_atm]. *)
Definition clean_atm : CleanedRow :=
  {| DataPreprocessor.Transaction_ID := "T-1001";
     Amount := Fin 1500;
     Merchant := VStr "Cash Point";
     Category := "ATM";
     User_ID := VStr "U-7";
     Timestamp := "2024-03-05T23:10:00.000Z";
     Location := VStr "Paris";
     Payment_Method := "credit_card" |}.

(** A prediction of the highest tier. *)
Definition pred_high : Prediction :=
  {| FraudDetectionModel.Transaction_ID := "T-1001";
     ml_pred_prob := 1;
     fraud_flag := 1;
     risk_level := HIGH;
     reason := "High transaction amount (>$1000), ATM transaction (very high risk)" |}.

End Samples.

(** ** dataPreprocessor.js: feature engineering, statistics, preprocessCSV *)

Module Features.

Import DataPreprocessor.

(** [a + b] on numbers *)
Definition js_add (a b : jsnum) : jsnum :=
  match a, b with
  | NaN, _ | _, NaN => NaN
  | Fin x, Fin y => Fin (x + y)
  | PosInf, NegInf | NegInf, PosInf => NaN
  | PosInf, _ | _, PosInf => PosInf
  | NegInf, _ | _, NegInf => NegInf
  end.

(** [a / b] on numbers; a zero divisor is the positive zero. *)
Definition js_div (a b : jsnum) : jsnum :=
  match a, b with
  | NaN, _ | _, NaN => NaN
  | Fin x, Fin y =>
      if Qeq_bool y 0 then
        (if Qeq_bool x 0 then NaN else if Qltb 0 x then PosInf else NegInf)
      else Fin (x / y)
  | Fin _, _ => Fin 0
  | PosInf, Fin y => if Qltb y 0 then NegInf else PosInf
  | NegInf, Fin y => if Qltb y 0 then PosInf else NegInf
  | _, _ => NaN
  end.

(** [s.includes(sub)] on strings *)
Fixpoint includes_text (sub s : string) : bool :=
  String.prefix sub s ||
  match s with
  | String _ r => includes_text sub r
  | EmptyString => false
  end.

(** The object literal [riskScores] of [getCategoryRiskScore]. *)
Definition riskScores : list (string * Q) :=
  [("ATM", 0.8); ("Online", 0.7); ("Gas", 0.6); ("E-commerce", 0.5);
   ("Food", 0.3); ("Retail", 0.4); ("Other", 0.5)]%Q.

(** [riskScores[category] || 0.5], over the keys of the literal. *)
Definition getCategoryRiskScore (category : string) : Q :=
  match find (fun kv => String.eqb (fst kv) category) riskScores with
  | Some kv => if Qeq_bool (snd kv) 0 then 0.5%Q else snd kv
  | None => 0.5%Q
  end.

(** A row after [engineerFeatures]: the cleaned row ([...row]) and the
    derived fields. *)
Record EngineeredRow : Type := {
  cleaned : CleanedRow;
  Hour_of_Day : jsnum;
  Is_Night_Transaction : Z;
  Is_High_Amount : Z;
  Amount_Log : jsnum;
  Category_Risk_Score : Q;
  Is_Foreign : Z
}.

Inductive failure : Type :=
| TypeError
| Error (message : string).

(** The outcome of an async function: its value, or what it threw. *)
Inductive outcome (A : Type) : Type :=
| Done (a : A)
| Failed (e : failure).
Arguments Done {A} a.
Arguments Failed {A} e.

(** The part of [getPreprocessingStats] that is computed on numbers and
    lists; the rendered percentages, the column names and the time range are
    not carried. *)
Record Stats : Type := {
  stat_originalRows : nat;
  stat_cleanedRows : nat;
  removedRows : Z;
  avgAmount : jsnum;
  categories : list string
}.

Record PreprocessResult : Type := {
  originalRows : nat;
  cleanedRows : nat;
  data : list EngineeredRow;
  stats : Stats
}.

(** [[...new Set(l)]]: the distinct elements, in order of first
    occurrence. *)
Definition distinct (l : list string) : list string :=
  fold_left (fun acc c => if includes acc c then acc else (acc ++ [c])%list) l [].

Section Engineering.
Context `{Host}.
(** [Math.log] *)
Variable Math_log : jsnum -> jsnum.

(** One iteration of the [data.map] callback of [engineerFeatures]; the
    only step that can throw is [row.Location.toLowerCase()]. *)
Definition engineerRow (row : CleanedRow) : result EngineeredRow :=
  let hour := getHours (Timestamp row) in
  let night := if js_ge hour (Fin 22) || js_le hour (Fin 6) then 1%Z else 0%Z in
  let high := if js_gt (Amount row) (Fin 1000) then 1%Z else 0%Z in
  let amountLog := Math_log (js_add (Amount row) (Fin 1)) in
  let risk := getCategoryRiskScore (Category row) in
  let make foreign :=
    {| cleaned := row; Hour_of_Day := hour; Is_Night_Transaction := night;
       Is_High_Amount := high; Amount_Log := amountLog;
       Category_Risk_Score := risk; Is_Foreign := foreign |} in
  if truthy (Some (Location row)) then
    match lowerOf (Location row) with
    | Throw => Throw
    | Ok l => Ok (make (if negb (includes_text "us" l) then 1%Z else 0%Z))
    end
  else Ok (make 0%Z).

Fixpoint engineerFeatures (rows : list CleanedRow) : result (list EngineeredRow) :=
  match rows with
  | [] => Ok []
  | row :: rest =>
      match engineerRow row with
      | Throw => Throw
      | Ok e =>
          match engineerFeatures rest with
          | Throw => Throw
          | Ok es => Ok (e :: es)
          end
      end
  end.

Definition getPreprocessingStats {A : Type}
    (originalData : list A) (cleanedData : list EngineeredRow) : Stats :=
  {| stat_originalRows := length originalData;
     stat_cleanedRows := length cleanedData;
     removedRows := Z.of_nat (length originalData) - Z.of_nat (length cleanedData);
     avgAmount :=
       js_div
         (fold_left (fun sum row => js_add sum (Amount (cleaned row)))
            cleanedData (Fin 0))
         (Fin (inject_Z (Z.of_nat (length cleanedData))));
     categories := distinct (map (fun row => Category (cleaned row)) cleanedData) |}.

(** [writeCSV]: the rows handed to the CSV writer, or the error of an
    empty batch. *)
Definition writeCSV (rows : list EngineeredRow) : outcome (list EngineeredRow) :=
  match rows with
  | [] => Failed (Error "No data to write")
  | _ => Done rows
  end.

(** [preprocessCSV] on the rows that [readCSV] resolved to.  The catch
    clause logs and throws the error again. *)
Definition preprocessCSV (os : nat -> Oracle) (rawData : list RawRow)
  : outcome PreprocessResult :=
  let cleanedData := cleanData os rawData in
  match engineerFeatures cleanedData with
  | Throw => Failed TypeError
  | Ok processedData =>
      match writeCSV processedData with
      | Failed e => Failed e
      | Done _ =>
          Done {| originalRows := length rawData;
                  cleanedRows := length processedData;
                  data := processedData;
                  stats := getPreprocessingStats rawData processedData |}
      end
  end.

End Engineering.

End Features.

(** ** index.js: the /process-csv handler *)

Module Service.

Import DataPreprocessor Features FraudDetectionModel DatabaseService.

(** The engineered row as [ruleBasedPrediction] reads it: a flag is read
    by its truthiness, a text field of the cleaned row as it is. *)
Definition scorerRow (e : EngineeredRow) : Row.t :=
  {| Row.Transaction_ID := DataPreprocessor.Transaction_ID (cleaned e);
     Row.Amount := Amount (cleaned e);
     Row.Is_Night_Transaction := negb (Z.eqb (Features.Is_Night_Transaction e) 0);
     Row.Hour_of_Day := Features.Hour_of_Day e;
     Row.Category := Category (cleaned e);
     Row.Is_Foreign := negb (Z.eqb (Features.Is_Foreign e) 0);
     Row.Payment_Method := Payment_Method (cleaned e);
     Row.Timestamp := Timestamp (cleaned e) |}.

(** The fields of the JSON answer that are computed from the batch. *)
Record Response : Type := {
  res_originalRows : nat;
  res_cleanedRows : nat;
  totalPredictions : nat;
  fraudulentTransactions : nat;
  highRiskTransactions : nat;
  alertsCreated : nat;
  transactionIds : list (option jsval);
  results : list Prediction
}.

Section Handler.
Context `{Host}.
Variable Math_log : jsnum -> jsnum.

(** [fraudModel.predict(preprocessResult.data)] *)
Definition predict (os : nat -> Oracle) (rows : list EngineeredRow) : list Prediction :=
  ruleBasedPrediction os (map scorerRow rows).

(** The handler on the parsed rows of the uploaded file, the CSV file of
    the predictions being written and the collections accepting every
    document.  [osc], [oss] and [osd] are the oracles of the cleaning, the
    scoring and the database step. *)
Definition processCsv (osc oss osd : nat -> Oracle) (rawData : list RawRow)
  : outcome Response :=
  match preprocessCSV Math_log osc rawData with
  | Failed e => Failed e
  | Done preprocessResult =>
      let predictions := predict oss (data preprocessResult) in
      let '(transactionDocs, alertDocs) := saveTransactions osd predictions in
      Done {| res_originalRows := originalRows preprocessResult;
              res_cleanedRows := cleanedRows preprocessResult;
              totalPredictions := length predictions;
              fraudulentTransactions :=
                length (List.filter (fun p => Z.eqb (fraud_flag p) 1) predictions);
              highRiskTransactions :=
                length (List.filter
                          (fun p => String.eqb (riskName (risk_level p)) "HIGH")
                          predictions);
              alertsCreated := length alertDocs;
              transactionIds := map (fun doc => doc !! "Transaction_ID") transactionDocs;
              results := predictions |}
  end.

End Handler.

End Service.

(** ** databaseService.js: the alert counts of getTransactionStats *)

Module AlertStats.

(** The [reduce] over the groups that the aggregation of the alerts by
    [$status] returned: a group is its [_id] ([None] for null) and its count.
    [stat._id.toLowerCase()] throws on an [_id] that is not a text. *)
Definition alertCounts (alertStats : list (option jsval * Z)) : result (gmap string Z) :=
  fold_left
    (fun acc stat =>
       match acc with
       | Throw => Throw
       | Ok m =>
           match fst stat with
           | Some (VStr s) => Ok (<[toLowerCase s := snd stat]> m)
           | _ => Throw
           end
       end)
    alertStats
    (Ok (<["open" := 0%Z]> (<["closed" := 0%Z]> (<["investigating" := 0%Z]> ∅)))).

End AlertStats.

(** ** The shape of a scoring rule *)

Module RuleShape.

Import FraudDetectionModel.

(** A rule adds at most one reason, keeps the reasons it found, and adds
    no empty text. *)
Definition one_more (rule : Acc -> Acc) : Prop :=
  forall s,
    (length (snd (rule s)) <= S (length (snd s)))%nat /\
    (Forall (fun r => r <> "") (snd s) -> Forall (fun r => r <> "") (snd (rule s))) /\
    (forall r, In r (snd s) -> In r (snd (rule s))).

End RuleShape.

(** ** More sample inputs *)

Module MoreSamples.

Import DataPreprocessor Features Samples.

(** A valid amount under the key AMOUNT only. *)
Definition raw_upper_amount : RawRow :=
  <["Transaction_ID" := VStr "T-9"]> (<["AMOUNT" := VStr "25"]> ∅).

(** A location given as a number. *)
Definition raw_numeric_location : RawRow :=
  <["Transaction_ID" := VStr "T-10"]>
  (<["Amount" := VStr "20"]>
  (<["Location" := VNum (Fin 75001)]> ∅)).

(** An arbitrary choice for the [Math.log] parameter when the code is run
    on examples: [Amount_Log] is read by no later step. *)
Definition no_log (n : jsnum) : jsnum := NaN.

(** What the normalizer makes of [raw_minimal]. *)
Definition clean_minimal : CleanedRow :=
  {| DataPreprocessor.Transaction_ID := "T-2";
     Amount := Fin 20;
     Merchant := VStr "Unknown Merchant";
     Category := "Other";
     User_ID := VStr "USER-4711";
     Timestamp := "2023-11-14T22:13:20.000Z";
     Location := VStr "Unknown";
     Payment_Method := "credit_card" |}.

(** A small domestic purchase at 03:10. *)
Definition clean_early : CleanedRow :=
  {| DataPreprocessor.Transaction_ID := "T-11";
     Amount := Fin 20;
     Merchant := VStr "Corner Shop";
     Category := "Retail";
     User_ID := VStr "U-3";
     Timestamp := "2024-03-05T03:10:00.000Z";
     Location := VStr "Austin, US";
     Payment_Method := "debit_card" |}.


(** The groups of an alert collection with two statuses. *)
Definition groups_with_status : list (option jsval * Z) :=
  [(Some (VStr "Open"), 3%Z); (Some (VStr "investigating"), 1%Z)].

(** The one group of a collection whose alerts have no status. *)
Definition groups_without_status : list (option jsval * Z) :=
  [(None, 4%Z)].

End MoreSamples.

(** * Comparisons of rationals *)

Module NumFacts.

Local Open Scope Q_scope.

Lemma Qltb_true (x y : Q) : Qltb x y = true <-> x < y.
Proof.
  unfold Qltb. rewrite negb_true_iff, <- not_true_iff_false, Qle_bool_iff.
  split; [apply Qnot_le_lt | apply Qlt_not_le].
Qed.

Lemma Qltb_false (x y : Q) : Qltb x y = false <-> y <= x.
Proof.
  unfold Qltb. rewrite negb_false_iff. apply Qle_bool_iff.
Qed.

(** Turns the boolean tests on rationals of the goal into facts. *)
Ltac qcases :=
  repeat match goal with
  | |- context [Qltb ?a ?b] =>
      let E := fresh "E" in
      destruct (Qltb a b) eqn:E;
      [apply Qltb_true in E | apply Qltb_false in E]
  | |- context [Qle_bool ?a ?b] =>
      let E := fresh "E" in
      destruct (Qle_bool a b) eqn:E;
      [apply Qle_bool_iff in E
      | apply not_true_iff_false in E; rewrite Qle_bool_iff in E;
        apply Qnot_le_lt in E]
  end.

End NumFacts.

(** * Properties of the rule scorer *)

Module ScorerProps.

Import FraudDetectionModel DecimalHost Samples NumFacts.
Local Open Scope Q_scope.

(** *** Each rule shifts the score by a weight of its own *)

Lemma fire_fst w msg s : fst (fire w msg s) = fst s + w.
Proof. reflexivity. Qed.

Lemma amountRule_shift a s :
  fst (amountRule a s) == fst s + fst (amountRule a (0, [])).
Proof.
  unfold amountRule.
  destruct (js_gt a (Fin 1000)); [cbn; ring|].
  destruct (js_gt a (Fin 500)); [cbn; ring|].
  destruct (js_gt a (Fin 100)); cbn; ring.
Qed.

Lemma nightRule_shift n h s :
  fst (nightRule n h s) == fst s + fst (nightRule n h (0, [])).
Proof. unfold nightRule. destruct (n || _); cbn; ring. Qed.

Lemma categoryRule_shift c s :
  fst (categoryRule c s) == fst s + fst (categoryRule c (0, [])).
Proof.
  unfold categoryRule.
  destruct (String.eqb c "ATM"); [cbn; ring|].
  destruct (_ || _); [cbn; ring|].
  destruct (_ || _); cbn; ring.
Qed.

Lemma foreignRule_shift f s :
  fst (foreignRule f s) == fst s + fst (foreignRule f (0, [])).
Proof. unfold foreignRule. destruct f; cbn; ring. Qed.

Lemma paymentRule_shift p s :
  fst (paymentRule p s) == fst s + fst (paymentRule p (0, [])).
Proof.
  unfold paymentRule.
  destruct (String.eqb p "digital_wallet"); [cbn; ring|].
  destruct (String.eqb p "credit_card"); cbn; ring.
Qed.

Lemma earlyRule_shift h s :
  fst (earlyRule h s) == fst s + fst (earlyRule h (0, [])).
Proof. unfold earlyRule. destruct (_ && _); cbn; ring. Qed.

Lemma roundRule_shift a s :
  fst (roundRule a s) == fst s + fst (roundRule a (0, [])).
Proof. unfold roundRule. destruct (_ && _); cbn; ring. Qed.

(** *** No rule lowers the score *)

Lemma amountRule_weight a :
  0 <= fst (amountRule a (0, [])) <= 0.6.
Proof.
  unfold amountRule.
  destruct (js_gt a (Fin 1000)); [cbn; lra|].
  destruct (js_gt a (Fin 500)); [cbn; lra|].
  destruct (js_gt a (Fin 100)); cbn; lra.
Qed.

Lemma nightRule_weight n h : 0 <= fst (nightRule n h (0, [])).
Proof. unfold nightRule. destruct (n || _); cbn; lra. Qed.

Lemma categoryRule_weight c : 0 <= fst (categoryRule c (0, [])).
Proof.
  unfold categoryRule.
  destruct (String.eqb c "ATM"); [cbn; lra|].
  destruct (_ || _); [cbn; lra|].
  destruct (_ || _); cbn; lra.
Qed.

Lemma foreignRule_weight f : 0 <= fst (foreignRule f (0, [])).
Proof. unfold foreignRule. destruct f; cbn; lra. Qed.

Lemma paymentRule_weight p : 0 <= fst (paymentRule p (0, [])).
Proof.
  unfold paymentRule.
  destruct (String.eqb p "digital_wallet"); [cbn; lra|].
  destruct (String.eqb p "credit_card"); cbn; lra.
Qed.

Lemma earlyRule_weight h : 0 <= fst (earlyRule h (0, [])).
Proof. unfold earlyRule. destruct (_ && _); cbn; lra. Qed.

Lemma roundRule_weight a : 0 <= fst (roundRule a (0, [])) <= 0.1.
Proof. unfold roundRule. destruct (_ && _); cbn; lra. Qed.

Section Scorer.
Context `{Host}.

(** The base score is 0.2 plus the weights of the seven rules. *)
Lemma baseScore_sum (o : Oracle) (row : Row.t) :
  baseScore o row ==
    0.2
    + fst (amountRule (Row.Amount row) (0, []))
    + fst (nightRule (Row.Is_Night_Transaction row) (Row.Hour_of_Day row) (0, []))
    + fst (categoryRule (Row.Category row) (0, []))
    + fst (foreignRule (Row.Is_Foreign row) (0, []))
    + fst (paymentRule (Row.Payment_Method row) (0, []))
    + fst (earlyRule (hourOf o row) (0, []))
    + fst (roundRule (Row.Amount row) (0, [])).
Proof.
  unfold baseScore, rules.
  rewrite roundRule_shift, earlyRule_shift, paymentRule_shift,
    foreignRule_shift, categoryRule_shift, nightRule_shift, amountRule_shift.
  cbn [fst]. ring.
Qed.

Lemma baseScore_floor (o : Oracle) (row : Row.t) : 0.2 <= baseScore o row.
Proof.
  rewrite baseScore_sum.
  pose proof (amountRule_weight (Row.Amount row)).
  pose proof (nightRule_weight (Row.Is_Night_Transaction row) (Row.Hour_of_Day row)).
  pose proof (categoryRule_weight (Row.Category row)).
  pose proof (foreignRule_weight (Row.Is_Foreign row)).
  pose proof (paymentRule_weight (Row.Payment_Method row)).
  pose proof (earlyRule_weight (hourOf o row)).
  pose proof (roundRule_weight (Row.Amount row)).
  lra.
Qed.

Lemma fraudProb_clamped (o : Oracle) (row : Row.t) :
  0.1 <= fraudProb o row <= 1.
Proof.
  unfold fraudProb.
  destruct (Q.max_spec 0.1 (Qmin 1 (fraudScore o row))) as [[? ->] | [? ->]];
  destruct (Q.min_spec 1 (fraudScore o row)) as [[? E] | [? E]];
  rewrite ?E in *; lra.
Qed.

End Scorer.

(** *** Rounding to four decimals *)

Lemma Qfloor_half (k : Z) : Qfloor (inject_Z k + (1 # 2)) = k.
Proof.
  apply Z.le_antisymm.
  - pose proof (Qfloor_le (inject_Z k + (1 # 2))) as Hle.
    apply Z.lt_succ_r. rewrite Zlt_Qlt.
    unfold Z.succ. rewrite inject_Z_plus. change (inject_Z 1) with 1. lra.
  - rewrite <- (Qfloor_Z k) at 1. apply Qfloor_resp_le. lra.
Qed.

Lemma over_10000 (a : Q) : a / 10000 == a * (1 # 10000).
Proof. field. Qed.

Lemma toFixed4_nonneg (x : Q) :
  0 <= x -> toFixed4 x = inject_Z (Qfloor (x * 10000 + (1 # 2))) / 10000.
Proof.
  intros Hx. unfold toFixed4.
  destruct (Qltb x 0) eqn:E; [apply Qltb_true in E; lra | reflexivity].
Qed.

(** Rounding keeps a value on its side of a multiple [c] of 1/10000. *)
Lemma toFixed4_lower (k : Z) (c x : Q) :
  c == inject_Z k * (1 # 10000) -> 0 <= x -> c <= x -> c <= toFixed4 x.
Proof.
  intros Hc Hx Hk. rewrite (toFixed4_nonneg x Hx).
  assert (Hz : (k <= Qfloor (x * 10000 + (1 # 2)))%Z).
  { rewrite <- (Qfloor_Z k) at 1. apply Qfloor_resp_le. lra. }
  rewrite Zle_Qle in Hz. rewrite over_10000. lra.
Qed.

Lemma toFixed4_upper (k : Z) (c x : Q) :
  c == inject_Z k * (1 # 10000) -> 0 <= x -> x <= c -> toFixed4 x <= c.
Proof.
  intros Hc Hx Hk. rewrite (toFixed4_nonneg x Hx).
  assert (Hz : (Qfloor (x * 10000 + (1 # 2)) <= k)%Z).
  { rewrite <- (Qfloor_half k). apply Qfloor_resp_le. lra. }
  rewrite Zle_Qle in Hz. rewrite over_10000. lra.
Qed.

(** The rounded value is within half a unit of the fourth decimal. *)
Lemma toFixed4_near (x : Q) :
  0 <= x -> - (1 # 20000) <= toFixed4 x - x <= 1 # 20000.
Proof.
  intros Hx. rewrite (toFixed4_nonneg x Hx).
  pose proof (Qfloor_le (x * 10000 + (1 # 2))) as Hlo.
  pose proof (Qlt_floor (x * 10000 + (1 # 2))) as Hhi.
  rewrite inject_Z_plus in Hhi.
  change (inject_Z 1) with 1 in Hhi.
  rewrite over_10000. lra.
Qed.

(** *** The risk tier and the flag as functions of the probability *)

Lemma getRiskLevel_HIGH (p : Q) : getRiskLevel p = HIGH <-> 0.5 <= p.
Proof.
  unfold getRiskLevel. qcases; split; intros; try discriminate; try reflexivity; lra.
Qed.

Lemma getRiskLevel_MEDIUM (p : Q) : getRiskLevel p = MEDIUM <-> 0.3 <= p /\ p < 0.5.
Proof.
  unfold getRiskLevel. qcases; split; intros; try discriminate; try reflexivity; lra.
Qed.

Lemma getRiskLevel_LOW (p : Q) : getRiskLevel p = LOW <-> p < 0.3.
Proof.
  unfold getRiskLevel. qcases; split; intros; try discriminate; try reflexivity; lra.
Qed.

Section Claims.
Context `{Host}.

(** C4, as amended.  The flag and the tier of a prediction are decided by
    the clamped probability before it is rounded: the flag is 1 exactly when
    that probability exceeds 0.3, the tier is HIGH exactly from 0.5 on,
    MEDIUM exactly on [0.3, 0.5) and LOW exactly below 0.3.  The probability
    stored in the prediction is this value rounded to four decimals, at most
    0.00005 away from it. *)
Theorem C4_flag_and_tier_of_unrounded_probability (o : Oracle) (row : Row.t) :
  let p := fraudProb o row in
  let r := predictRow o row in
  (fraud_flag r = 1%Z <-> 0.3 < p) /\
  (risk_level r = HIGH <-> 0.5 <= p) /\
  (risk_level r = MEDIUM <-> 0.3 <= p /\ p < 0.5) /\
  (risk_level r = LOW <-> p < 0.3) /\
  ml_pred_prob r = toFixed4 p /\
  - (1 # 20000) <= ml_pred_prob r - p <= 1 # 20000.
Proof.
  intros p r. subst r. cbn [predictRow fraud_flag risk_level ml_pred_prob].
  fold p.
  pose proof (fraudProb_clamped o row) as Hp. fold p in Hp.
  split; [| split; [| split; [| split; [| split]]]].
  - destruct (Qltb 0.3 p) eqn:E.
    + apply Qltb_true in E. tauto.
    + apply Qltb_false in E. split; [discriminate | lra].
  - apply getRiskLevel_HIGH.
  - apply getRiskLevel_MEDIUM.
  - apply getRiskLevel_LOW.
  - reflexivity.
  - apply toFixed4_near. lra.
Qed.

(** C5.  Whenever the random term lies in [0, 0.3), the probability that
    the scorer computes is the raw additive score (rules plus random term)
    clamped below at 0.1 and above at 1.0, it lies in [0.1, 1.0], and so does
    the rounded value stored in the prediction. *)
Theorem C5_probability_is_clamped_score (o : Oracle) (row : Row.t) :
  0 <= random o * 0.3 -> random o * 0.3 < 0.3 ->
  let raw := fraudScore o row in
  fraudProb o row == (if Qltb raw 0.1 then 0.1 else if Qltb 1 raw then 1 else raw) /\
  (0.1 <= fraudProb o row <= 1) /\
  (0.1 <= ml_pred_prob (predictRow o row) <= 1).
Proof.
  intros _ _ raw.
  pose proof (fraudProb_clamped o row) as Hp.
  split; [| split; [exact Hp |]].
  - unfold fraudProb. fold raw.
    destruct (Q.max_spec 0.1 (Qmin 1 raw)) as [[? ->] | [? ->]];
    destruct (Q.min_spec 1 raw) as [[? E] | [? E]];
    rewrite ?E in *; qcases; lra.
  - cbn [predictRow ml_pred_prob]. split.
    + apply (toFixed4_lower 1000); [reflexivity | lra | lra].
    + apply (toFixed4_upper 10000); [reflexivity | lra | lra].
Qed.

(** C10.  For a non-negative random value the probability is at least
    0.2: the score starts at 0.2 and no rule lowers it.  The lower clamp at
    0.1 is therefore never the binding bound (the probability is the smaller
    of 1 and the score), and the stored, rounded probability is at least 0.2
    as well, hence never in [0.1, 0.2). *)
Theorem C10_probability_at_least_base (o : Oracle) (row : Row.t) :
  0 <= random o ->
  0.2 <= fraudProb o row /\
  fraudProb o row == Qmin 1 (fraudScore o row) /\
  0.2 <= ml_pred_prob (predictRow o row) /\
  ~ (0.1 <= ml_pred_prob (predictRow o row) /\ ml_pred_prob (predictRow o row) < 0.2).
Proof.
  intros Hu.
  pose proof (baseScore_floor o row) as Hb.
  assert (Hs : 0.2 <= fraudScore o row) by (unfold fraudScore; lra).
  assert (Hm : 0.2 <= Qmin 1 (fraudScore o row)).
  { destruct (Q.min_spec 1 (fraudScore o row)) as [[? ->] | [? ->]]; lra. }
  assert (Hp : fraudProb o row == Qmin 1 (fraudScore o row)).
  { unfold fraudProb. apply Q.max_r. lra. }
  assert (Hr : 0.2 <= ml_pred_prob (predictRow o row)).
  { cbn [predictRow ml_pred_prob].
    apply (toFixed4_lower 2000); [reflexivity | |]; rewrite Hp; lra. }
  repeat split; try assumption; try lra.
Qed.

(** C1, as amended.  With the random term fixed to 0, a row with amount
    1500, category ATM, a foreign location, payment by credit card and the
    night flag set is scored 0.2+0.6+0.3+0.4+0.4+0.15+0.1 = 2.15 before
    clamping, the last 0.1 being the round-number rule (1500 is a multiple of
    100), and 0.25 more when the hour of its timestamp lies in [0, 7].  The
    probability is clamped to 1.0, the tier is HIGH, the flag is set, and the
    reasons are the six (or seven) strings below, in evaluation order. *)
Theorem C1_deterministic_component (o : Oracle) (row : Row.t) :
  Row.Amount row = Fin 1500 ->
  Row.Category row = "ATM" ->
  Row.Is_Foreign row = true ->
  Row.Payment_Method row = "credit_card" ->
  Row.Is_Night_Transaction row = true ->
  random o == 0 ->
  let early := js_ge (hourOf o row) (Fin 0) && js_le (hourOf o row) (Fin 7) in
  baseScore o row == 2.15 + (if early then 0.25 else 0) /\
  reasons o row =
    (["High transaction amount (>$1000)";
      "Night time transaction (high risk)";
      "ATM transaction (very high risk)";
      "Foreign transaction (very high risk)";
      "Credit card transaction"]
     ++ (if early then ["Very early morning transaction"] else [])
     ++ ["Round number amount (suspicious pattern)"])%list /\
  length (reasons o row) = (if early then 7 else 6)%nat /\
  fraudProb o row == 1 /\
  ml_pred_prob (predictRow o row) == 1 /\
  risk_level (predictRow o row) = HIGH /\
  fraud_flag (predictRow o row) = 1%Z.
Proof.
  intros Ha Hc Hf Hm Hn Hu early.
  assert (Hrules : rules o row =
    fire 0.1 "Round number amount (suspicious pattern)" (earlyRule (hourOf o row)
      (fire 0.15 "Credit card transaction"
        (fire 0.4 "Foreign transaction (very high risk)"
          (fire 0.4 "ATM transaction (very high risk)"
            (fire 0.3 "Night time transaction (high risk)"
              (fire 0.6 "High transaction amount (>$1000)" (0.2, [])))))))).
  { unfold rules. rewrite Ha, Hc, Hf, Hm, Hn. reflexivity. }
  assert (Hbase : baseScore o row == 2.15 + (if early then 0.25 else 0)).
  { unfold baseScore. rewrite Hrules.
    unfold earlyRule. fold early. destruct early; cbn; lra. }
  assert (Hprob : fraudProb o row == 1).
  { unfold fraudProb, fraudScore.
    assert (1 <= baseScore o row + random o * 0.3)
      by (rewrite Hbase, Hu; destruct early; lra).
    rewrite Q.min_l by assumption. apply Q.max_r. lra. }
  split; [exact Hbase |].
  split; [unfold reasons; rewrite Hrules; unfold earlyRule; fold early;
          destruct early; reflexivity |].
  split; [unfold reasons; rewrite Hrules; unfold earlyRule; fold early;
          destruct early; reflexivity |].
  split; [exact Hprob |].
  split; [| split].
  - cbn [predictRow ml_pred_prob]. apply Qle_antisym.
    + apply (toFixed4_upper 10000); [reflexivity | |]; rewrite Hprob; lra.
    + apply (toFixed4_lower 10000); [reflexivity | |]; rewrite Hprob; lra.
  - cbn [predictRow risk_level]. apply getRiskLevel_HIGH. rewrite Hprob. lra.
  - cbn [predictRow fraud_flag].
    assert (E : Qltb 0.3 (fraudProb o row) = true)
      by (apply Qltb_true; rewrite Hprob; lra).
    now rewrite E.
Qed.

(** Across a tier boundary the amount rule gains at least 0.2. *)
Lemma amount_jump (a1 a2 : jsnum) (b : Q) :
  In b [100; 500; 1000] ->
  js_le a1 (Fin b) = true -> js_lt (Fin b) a2 = true ->
  fst (amountRule a1 (0, [])) + 0.2 <= fst (amountRule a2 (0, [])).
Proof.
  intros Hb H1 H2.
  destruct Hb as [<- | [<- | [<- | []]]];
    destruct a1 as [| x | |]; try discriminate H1;
    destruct a2 as [| y | |]; try discriminate H2;
    unfold js_le, js_lt in H1, H2;
    try apply Qle_bool_iff in H1; try apply Qltb_true in H2;
    unfold amountRule, js_gt, js_lt; qcases; cbn [fst fire]; lra.
Qed.

(** C9.  With every other field of the row held fixed, raising the amount
    from a value at or below one of the boundaries 100, 500, 1000 to a value
    above that boundary does not lower the base score (the score before the
    random term is added). *)
Theorem C9_amount_across_tier_boundary
    (o : Oracle) (row : Row.t) (a1 a2 : jsnum) (b : Q) :
  In b [100; 500; 1000] ->
  js_le a1 (Fin b) = true -> js_lt (Fin b) a2 = true ->
  baseScore o (withAmount a1 row) <= baseScore o (withAmount a2 row).
Proof.
  intros Hb H1 H2.
  rewrite !baseScore_sum.
  change (hourOf o (withAmount a1 row)) with (hourOf o row).
  change (hourOf o (withAmount a2 row)) with (hourOf o row).
  cbn [withAmount Row.Amount Row.Is_Night_Transaction Row.Hour_of_Day
       Row.Category Row.Is_Foreign Row.Payment_Method].
  pose proof (amount_jump a1 a2 b Hb H1 H2).
  pose proof (roundRule_weight a1). pose proof (roundRule_weight a2).
  lra.
Qed.

End Claims.

(** *** The claims on concrete rows *)

(** C1: the row of the claim, scored at 23:10 with the random term 0, has
    a base score of 2.15, not 2.05, and six reasons, not five. *)
Lemma C1_counterexample :
  baseScore (oracle 0) atm_night == 2.15 /\
  length (reasons (oracle 0) atm_night) = 6%nat /\
  ~ (baseScore (oracle 0) atm_night == 2.05 /\
     length (reasons (oracle 0) atm_night) = 5%nat).
Proof.
  split; [reflexivity |]. split; [reflexivity |].
  intros [_ Hlen]. vm_compute in Hlen. discriminate Hlen.
Qed.

Lemma C1_witness :
  baseScore (oracle 0) atm_early == 2.15 + 0.25 /\
  length (reasons (oracle 0) atm_early) = 7%nat /\
  fraudProb (oracle 0) atm_early == 1 /\
  risk_level (predictRow (oracle 0) atm_early) = HIGH.
Proof.
  pose proof (C1_deterministic_component (oracle 0) atm_early
                eq_refl eq_refl eq_refl eq_refl eq_refl (Qeq_refl 0)) as W.
  cbv zeta in W.
  change (js_ge (hourOf (oracle 0) atm_early) (Fin 0)
          && js_le (hourOf (oracle 0) atm_early) (Fin 7)) with true in W.
  cbv iota in W.
  destruct W as (Hb & _ & Hl & Hp & _ & Hr & _).
  repeat split; assumption.
Defined.

(** C4: with no rule fired and a random term of 0.10003 the probability
    is 0.30003: the flag is set, yet the stored probability is 0.3, which is
    not above 0.3.  With a random term of 0.29996 the probability is 0.49996:
    the tier is MEDIUM, yet the stored probability is 0.5. *)
Lemma C4_counterexample :
  (let r := predictRow (oracle (10003 # 30000)) quiet in
   ~ (fraud_flag r = 1%Z <-> 0.3 < ml_pred_prob r)) /\
  (let r := predictRow (oracle (29996 # 30000)) quiet in
   ~ (risk_level r = HIGH <-> 0.5 <= ml_pred_prob r)).
Proof.
  split; intros r [Hl Hr].
  - assert (Hflag : fraud_flag r = 1%Z) by reflexivity.
    specialize (Hl Hflag). vm_compute in Hl. discriminate Hl.
  - assert (Hprob : 0.5 <= ml_pred_prob r) by (vm_compute; discriminate).
    specialize (Hr Hprob). vm_compute in Hr. discriminate Hr.
Qed.

Lemma C5_witness :
  0.1 <= fraudProb (oracle (1 # 2)) quiet <= 1 /\
  fraudProb (oracle (1 # 2)) quiet == 0.35.
Proof.
  assert (H0 : 0 <= random (oracle (1 # 2)) * 0.3) by (vm_compute; discriminate).
  assert (H1 : random (oracle (1 # 2)) * 0.3 < 0.3) by reflexivity.
  destruct (C5_probability_is_clamped_score (oracle (1 # 2)) quiet H0 H1)
    as (Heq & Hin & _).
  split; [exact Hin |].
  rewrite Heq. reflexivity.
Defined.

Lemma C9_witness :
  baseScore (oracle 0) (withAmount (Fin 500) quiet)
  <= baseScore (oracle 0) (withAmount (Fin 501) quiet).
Proof.
  apply (C9_amount_across_tier_boundary (oracle 0) quiet (Fin 500) (Fin 501) 500).
  - right. left. reflexivity.
  - reflexivity.
  - reflexivity.
Defined.

Lemma C10_witness :
  0.2 <= fraudProb (oracle 0) quiet /\
  0.2 <= ml_pred_prob (predictRow (oracle 0) quiet).
Proof.
  assert (H0 : 0 <= random (oracle 0)) by (vm_compute; discriminate).
  destruct (C10_probability_at_least_base (oracle 0) quiet H0) as (Hp & _ & Hr & _).
  split; assumption.
Defined.

(** Within one tier the score is not monotone: 200 is a multiple of 100,
    250 is not. *)
Example score_drops_within_a_tier :
  baseScore (oracle 0) (withAmount (Fin 250) quiet)
  < baseScore (oracle 0) (withAmount (Fin 200) quiet).
Proof. reflexivity. Qed.

End ScorerProps.

(** * Properties of the normalizer *)

Module NormalizerProps.

Import DataPreprocessor DecimalHost AmountText Samples NumFacts.

Lemma or_else_truthy (a b : option jsval) : truthy a = true -> or_else a b = a.
Proof. intros E. unfold or_else. now rewrite E. Qed.

Lemma or_default_truthy (v : jsval) (d : string) :
  truthy (Some v) = true -> or_default (Some v) d = v.
Proof. intros E. unfold or_default. now rewrite E. Qed.

Lemma or_default_is_truthy (v : option jsval) (d : string) :
  d <> "" -> truthy (Some (or_default v d)) = true.
Proof.
  intros Hd. unfold or_default. destruct v as [x |].
  - destruct (truthy (Some x)) eqn:E; [exact E |].
    cbn. now apply negb_true_iff, String.eqb_neq.
  - cbn. now apply negb_true_iff, String.eqb_neq.
Qed.

(** *** White space *)

Lemma trimEnd_cons (c : ascii) (r : string) :
  trimEnd r <> "" \/ is_space c = false ->
  trimEnd (String c r) = String c (trimEnd r).
Proof.
  intros Hc. cbn [trimEnd]. destruct (trimEnd r) eqn:E.
  - destruct Hc as [Hc | Hc]; [congruence | now rewrite Hc].
  - reflexivity.
Qed.

Lemma trimEnd_idem (s : string) : trimEnd (trimEnd s) = trimEnd s.
Proof.
  induction s as [| c r IH]; [reflexivity |].
  cbn [trimEnd]. destruct (trimEnd r) as [| c' r'] eqn:E.
  - destruct (is_space c) eqn:Ec; [reflexivity |].
    cbn [trimEnd]. now rewrite Ec.
  - rewrite trimEnd_cons; [now rewrite IH | left; rewrite IH; discriminate].
Qed.

Lemma trimStart_head (s : string) :
  trimStart s = "" \/
  exists c r, trimStart s = String c r /\ is_space c = false.
Proof.
  induction s as [| c r IH]; [now left |].
  cbn [trimStart]. destruct (is_space c) eqn:Ec; [exact IH |].
  right. now exists c, r.
Qed.

Lemma trim_idem (s : string) : trim (trim s) = trim s.
Proof.
  unfold trim. destruct (trimStart_head s) as [-> | (c & r & -> & Hc)];
    [reflexivity |].
  rewrite (trimEnd_cons c r) by now right.
  cbn [trimStart]. rewrite Hc.
  rewrite trimEnd_cons by now right.
  now rewrite trimEnd_idem.
Qed.

Lemma append_nonempty (a b : string) : b <> "" -> (a ++ b)%string <> "".
Proof. destruct a; cbn; [tauto | discriminate]. Qed.

Lemma trimEnd_app (a b : string) :
  trimEnd b <> "" -> trimEnd (a ++ b) = (a ++ trimEnd b)%string.
Proof.
  intros Hb. induction a as [| c a IH]; [reflexivity |].
  change (String c a ++ b)%string with (String c (a ++ b)).
  rewrite trimEnd_cons; [now rewrite IH |].
  left. rewrite IH. now apply append_nonempty.
Qed.

Lemma base36_not_space (d : nat) : is_space (base36 d) = false.
Proof.
  unfold base36.
  pose proof (Nat.mod_upper_bound d 36 ltac:(discriminate)) as Hk.
  destruct (d mod 36)%nat as [| k]; [reflexivity |].
  do 35 (destruct k as [| k]; [reflexivity |]). lia.
Qed.

Lemma randSuffix_trimmed (o : Oracle) : trimEnd (randSuffix o) = randSuffix o.
Proof.
  unfold randSuffix. induction (randDigits o) as [| d ds IH]; [reflexivity |].
  cbn [map string_of_list_ascii].
  rewrite trimEnd_cons by (right; apply base36_not_space). now rewrite IH.
Qed.

(** A generated identifier carries no surrounding white space when its
    random suffix does not end in white space. *)
Lemma generated_id_trimmed (d sfx : string) :
  trimEnd sfx = sfx ->
  trim ("TXN-" ++ d ++ "-" ++ sfx) = ("TXN-" ++ d ++ "-" ++ sfx)%string.
Proof.
  intros Hs.
  assert (H1 : trimEnd ("-" ++ sfx) = ("-" ++ sfx)%string).
  { change ("-" ++ sfx)%string with (String "-" sfx).
    rewrite trimEnd_cons by now right. now rewrite Hs. }
  assert (N1 : trimEnd ("-" ++ sfx) <> "") by (rewrite H1; discriminate).
  assert (H2 : trimEnd (d ++ "-" ++ sfx) = (d ++ "-" ++ sfx)%string).
  { rewrite trimEnd_app by exact N1. now rewrite H1. }
  assert (N2 : trimEnd (d ++ "-" ++ sfx) <> "").
  { rewrite H2. apply append_nonempty. discriminate. }
  unfold trim.
  change (trimStart ("TXN-" ++ d ++ "-" ++ sfx))
    with ("TXN-" ++ d ++ "-" ++ sfx)%string.
  rewrite trimEnd_app by exact N2. now rewrite H2.
Qed.

(** *** Numbers *)

(** A number that is neither NaN nor at most 0 is above 0, and truthy. *)
Lemma positive_amount (a : jsnum) :
  isNaN a = false -> js_le a (Fin 0) = false ->
  js_gt a (Fin 0) = true /\ num_truthy a = true.
Proof.
  destruct a as [| q | |]; cbn; try discriminate; try tauto.
  intros _ Hle.
  apply not_true_iff_false in Hle. rewrite Qle_bool_iff in Hle.
  apply Qnot_le_lt in Hle. split.
  - now apply Qltb_true.
  - apply negb_true_iff, not_true_iff_false. rewrite Qeq_bool_iff.
    intros E. rewrite E in Hle. now apply Qlt_irrefl in Hle.
Qed.

(** *** Lists *)

Lemma omap_id_length {A : Type} (l : list (option A)) :
  (length (omap id l) <= length l)%nat.
Proof.
  induction l as [| [a |] l IH]; cbn; lia.
Qed.

(** *** The helpers of cleanRow *)

Lemma normalizeCategory_member (row : RawRow) (c : string) :
  normalizeCategory row = Ok c -> In c validCategories.
Proof.
  unfold normalizeCategory.
  destruct (categoryField row) as [v |]; [| intros [= <-]; cbn; tauto].
  destruct (truthy (Some v)); [| intros [= <-]; cbn; tauto].
  destruct (lowerOf v) as [lc |]; [| discriminate].
  destruct (find _ validCategories) as [m |] eqn:E; [| intros [= <-]; cbn; tauto].
  apply find_some in E as [Hin _].
  destruct (String.eqb m "") eqn:Em; intros [= <-]; [cbn; tauto | exact Hin].
Qed.

(** A text that matches no category, whatever its case, folds to Other. *)
Lemma unmatched_category_is_Other (row : RawRow) (s : string) :
  categoryField row = Some (VStr s) ->
  (forall cat, In cat validCategories -> toLowerCase cat <> toLowerCase s) ->
  normalizeCategory row = Ok "Other".
Proof.
  intros Hf Hno. unfold normalizeCategory. rewrite Hf.
  destruct (truthy (Some (VStr s))); [| reflexivity].
  cbn [lowerOf].
  destruct (find _ validCategories) as [m |] eqn:E; [| reflexivity].
  apply find_some in E as [Hin Heq].
  apply String.eqb_eq in Heq. now apply Hno in Hin.
Qed.

Lemma normalizePaymentMethod_member (row : RawRow) (m : string) :
  normalizePaymentMethod row = Ok m -> In m validMethods.
Proof.
  unfold normalizePaymentMethod.
  destruct (methodField row) as [v |]; [| intros [= <-]; cbn; tauto].
  destruct (truthy (Some v)); [| intros [= <-]; cbn; tauto].
  destruct (lowerOf v) as [lm |]; [| discriminate].
  destruct (includes validMethods (underscore_non_lower lm)) eqn:E;
    intros [= <-]; [| cbn; tauto].
  unfold includes in E. apply existsb_exists in E as (x & Hin & Heq).
  apply String.eqb_eq in Heq. now subst.
Qed.

(** Only a number makes the payment-method helper throw. *)
Lemma normalizePaymentMethod_total (row : RawRow) :
  is_number (methodField row) = false ->
  exists m, normalizePaymentMethod row = Ok m.
Proof.
  unfold normalizePaymentMethod.
  destruct (methodField row) as [[s | n] |]; [| discriminate |]; intros _.
  - destruct (truthy (Some (VStr s))); cbn [lowerOf]; eauto.
  - eauto.
Qed.

Section Normalizer.
Context `{Host}.

Lemma normalizeTransactionId_nonempty (o : Oracle) (row : RawRow) :
  normalizeTransactionId o row <> "".
Proof.
  unfold normalizeTransactionId.
  match goal with |- context [if ?c then _ else _] => destruct c eqn:E end.
  - apply andb_true_iff in E as [E _]. apply andb_true_iff in E as [E _].
    apply andb_true_iff in E as [_ E].
    now apply negb_true_iff, String.eqb_neq in E.
  - discriminate.
Qed.

Lemma normalizeTransactionId_trimmed (o : Oracle) (row : RawRow) :
  trim (normalizeTransactionId o row) = normalizeTransactionId o row.
Proof.
  unfold normalizeTransactionId.
  match goal with |- context [if ?c then _ else _] => destruct c end.
  - apply trim_idem.
  - apply generated_id_trimmed, randSuffix_trimmed.
Qed.

Lemma normalizeAmount_Some (row : RawRow) (a : jsnum) :
  normalizeAmount row = Some a ->
  a = parsedAmount row /\ isNaN a = false /\ js_le a (Fin 0) = false.
Proof.
  unfold normalizeAmount, parsedAmount.
  destruct (isEmpty (amountField row)); [discriminate |].
  destruct (isNaN _ || js_le _ (Fin 0)) eqn:E; [discriminate |].
  intros [= <-]. now apply orb_false_iff in E.
Qed.


(** What a cleaned row is made of. *)
Lemma cleanRow_Some (o : Oracle) (row : RawRow) (rec : CleanedRow) :
  cleanRow o row = Some rec ->
  Transaction_ID rec = normalizeTransactionId o row /\
  normalizeAmount row = Some (Amount rec) /\
  Merchant rec = normalizeMerchant row /\
  normalizeCategory row = Ok (Category rec) /\
  User_ID rec = normalizeUserId o row /\
  Timestamp rec = normalizeTimestamp o row /\
  Location rec = normalizeLocation row /\
  normalizePaymentMethod row = Ok (Payment_Method rec).
Proof.
  unfold cleanRow.
  destruct (normalizeCategory row) as [c |]; [| discriminate].
  destruct (normalizePaymentMethod row) as [m |]; [| discriminate].
  destruct (String.eqb _ ""); [discriminate |].
  destruct (normalizeAmount row) as [a |]; [| discriminate].
  destruct (negb (num_truthy a)); [discriminate |].
  intros [= <-]. cbn. tauto.
Qed.

(** A row is dropped for its category, its payment method or its amount. *)
Lemma cleanRow_None (o : Oracle) (row : RawRow) :
  cleanRow o row = None ->
  normalizeCategory row = Throw \/ normalizePaymentMethod row = Throw \/
  normalizeAmount row = None.
Proof.
  unfold cleanRow.
  destruct (normalizeCategory row) as [c |]; [| tauto].
  destruct (normalizePaymentMethod row) as [m |]; [| tauto].
  destruct (String.eqb _ "") eqn:Et.
  { apply String.eqb_eq in Et. now apply normalizeTransactionId_nonempty in Et. }
  destruct (normalizeAmount row) as [a |] eqn:Ea; [| tauto].
  apply normalizeAmount_Some in Ea as (_ & Hn & Hl).
  destruct (positive_amount a Hn Hl) as [_ ->]. discriminate.
Qed.

Lemma cleanData_provenance (os : nat -> Oracle) (data : list RawRow) (rec : CleanedRow) :
  In rec (cleanData os data) ->
  exists i row, In row data /\ isValidRow row = true /\ cleanRow (os i) row = Some rec.
Proof.
  unfold cleanData. rewrite <- list_elem_of_In, list_elem_of_omap.
  intros (x & Hx & Hid). cbn in Hid. subst x.
  apply elem_of_lookup_imap in Hx as (i & row & Heq & Hlook).
  exists i, row.
  apply list_elem_of_lookup_2, list_elem_of_In, filter_In in Hlook.
  destruct Hlook. now repeat split.
Qed.

Lemma cleanData_length (os : nat -> Oracle) (data : list RawRow) :
  (length (cleanData os data) <= length data)%nat.
Proof.
  unfold cleanData.
  etransitivity; [apply omap_id_length |].
  rewrite length_imap. apply filter_length_le.
Qed.


(** C7.  Every record of the normalizer's output has a non-empty
    Transaction_ID, an amount above zero and a category among the seven
    allowed ones; a category text that matches none of them, whatever its
    case, is replaced by Other. *)
Theorem C7_normalized_record_invariant
    (os : nat -> Oracle) (data : list RawRow) (rec : CleanedRow) :
  In rec (cleanData os data) ->
  Transaction_ID rec <> "" /\
  js_gt (Amount rec) (Fin 0) = true /\
  In (Category rec) validCategories /\
  (forall row s,
     categoryField row = Some (VStr s) ->
     (forall cat, In cat validCategories -> toLowerCase cat <> toLowerCase s) ->
     normalizeCategory row = Ok "Other").
Proof.
  intros Hin.
  destruct (cleanData_provenance os data rec Hin) as (i & row & _ & _ & Hc).
  apply cleanRow_Some in Hc as (Ht & Ha & _ & Hcat & _).
  split; [rewrite Ht; apply normalizeTransactionId_nonempty |].
  split; [apply normalizeAmount_Some in Ha as (_ & Hn & Hl);
          now apply positive_amount |].
  split; [now apply normalizeCategory_member in Hcat |].
  exact unmatched_category_is_Other.
Qed.

(** C3, as amended.  For a row whose payment method is a text or is
    missing (every cell of a CSV row is a text), the normalized method is one
    of the five allowed values and the helper does not fail: a missing or
    empty method becomes credit_card, a text that is not an allowed value
    after lower-casing and replacing every other character by an underscore
    becomes other, and the row is dropped only for its category or its
    amount. *)
Theorem C3_payment_method_normalization (o : Oracle) (row : RawRow) :
  is_number (methodField row) = false ->
  exists m,
    normalizePaymentMethod row = Ok m /\
    In m validMethods /\
    (truthy (methodField row) = false -> m = "credit_card") /\
    (forall s, methodField row = Some (VStr s) -> s <> "" ->
       includes validMethods (underscore_non_lower (toLowerCase s)) = false ->
       m = "other") /\
    (cleanRow o row = None ->
       normalizeCategory row = Throw \/ normalizeAmount row = None).
Proof.
  intros Hnum.
  destruct (normalizePaymentMethod_total row Hnum) as [m Hm].
  exists m. split; [exact Hm |].
  split; [now apply normalizePaymentMethod_member in Hm |].
  split; [| split].
  - intros Hf. unfold normalizePaymentMethod in Hm.
    destruct (methodField row) as [v |]; [| congruence].
    rewrite Hf in Hm. congruence.
  - intros s Hs Hne Hinc. unfold normalizePaymentMethod in Hm.
    rewrite Hs in Hm. cbn [truthy lowerOf] in Hm.
    apply String.eqb_neq in Hne. rewrite Hne in Hm. cbn [negb] in Hm.
    rewrite Hinc in Hm. congruence.
  - intros Hnone. apply cleanRow_None in Hnone as [? | [? | ?]];
      [tauto | congruence | tauto].
Qed.

(** *** Cleaning a cleaned row again *)

Lemma first_truthy (v : jsval) (rest : option jsval) :
  truthy (Some v) = true -> or_else (Some v) rest = Some v.
Proof. apply or_else_truthy. Qed.

Lemma text_truthy (s : string) : s <> "" -> truthy (Some (VStr s)) = true.
Proof. intros Hs. cbn. now apply negb_true_iff, String.eqb_neq. Qed.

Lemma again_id (o : Oracle) (rec : CleanedRow) :
  Transaction_ID rec <> "" ->
  trim (Transaction_ID rec) = Transaction_ID rec ->
  Transaction_ID rec <> "null" -> Transaction_ID rec <> "undefined" ->
  normalizeTransactionId o (rowOf rec) = Transaction_ID rec.
Proof.
  intros Hne Htrim Hnull Hundef. unfold normalizeTransactionId.
  change (rowOf rec !! "Transaction_ID") with (Some (VStr (Transaction_ID rec))).
  rewrite first_truthy by now apply text_truthy.
  rewrite (text_truthy _ Hne). cbn [String_of toStr is_str]. rewrite Htrim.
  apply String.eqb_neq in Hne, Hnull, Hundef.
  now rewrite Hne, Hnull, Hundef.
Qed.

Lemma again_amount (rec : CleanedRow) :
  isNaN (Amount rec) = false -> js_le (Amount rec) (Fin 0) = false ->
  parseFloat (strip_currency (numToString (Amount rec))) = Amount rec ->
  normalizeAmount (rowOf rec) = Some (Amount rec).
Proof.
  intros Hn Hl Hparse. unfold normalizeAmount, amountField.
  change (rowOf rec !! "Amount") with (Some (VNum (Amount rec))).
  destruct (positive_amount _ Hn Hl) as [_ Ht].
  rewrite first_truthy by exact Ht.
  cbn [isEmpty String_of toStr]. now rewrite Hparse, Hn, Hl.
Qed.

Lemma again_category (rec : CleanedRow) :
  In (Category rec) validCategories ->
  normalizeCategory (rowOf rec) = Ok (Category rec).
Proof.
  intros Hin. unfold normalizeCategory, categoryField.
  change (rowOf rec !! "Category") with (Some (VStr (Category rec))).
  cbn in Hin.
  destruct Hin as [<- | [<- | [<- | [<- | [<- | [<- | [<- | []]]]]]]]; reflexivity.
Qed.

Lemma again_method (rec : CleanedRow) :
  In (Payment_Method rec) validMethods ->
  normalizePaymentMethod (rowOf rec) = Ok (Payment_Method rec).
Proof.
  intros Hin. unfold normalizePaymentMethod, methodField.
  change (rowOf rec !! "Payment_Method") with (Some (VStr (Payment_Method rec))).
  cbn in Hin.
  destruct Hin as [<- | [<- | [<- | [<- | [<- | []]]]]]; reflexivity.
Qed.

Lemma again_merchant (rec : CleanedRow) :
  truthy (Some (Merchant rec)) = true ->
  normalizeMerchant (rowOf rec) = Merchant rec.
Proof.
  intros Ht. unfold normalizeMerchant.
  change (rowOf rec !! "Merchant") with (Some (Merchant rec)).
  rewrite first_truthy by exact Ht. now apply or_default_truthy.
Qed.

Lemma again_user (o : Oracle) (rec : CleanedRow) :
  truthy (Some (User_ID rec)) = true ->
  normalizeUserId o (rowOf rec) = User_ID rec.
Proof.
  intros Ht. unfold normalizeUserId.
  change (rowOf rec !! "User_ID") with (Some (User_ID rec)).
  rewrite first_truthy by exact Ht. now apply or_default_truthy.
Qed.

Lemma again_location (rec : CleanedRow) :
  truthy (Some (Location rec)) = true ->
  normalizeLocation (rowOf rec) = Location rec.
Proof.
  intros Ht. unfold normalizeLocation.
  change (rowOf rec !! "Location") with (Some (Location rec)).
  rewrite first_truthy by exact Ht. now apply or_default_truthy.
Qed.

Lemma again_timestamp (o : Oracle) (rec : CleanedRow) :
  Timestamp rec <> "" ->
  dateToISO (VStr (Timestamp rec)) = Some (Timestamp rec) ->
  normalizeTimestamp o (rowOf rec) = Timestamp rec.
Proof.
  intros Hne Hd. unfold normalizeTimestamp.
  change (rowOf rec !! "Timestamp") with (Some (VStr (Timestamp rec))).
  rewrite first_truthy by now apply text_truthy.
  now rewrite (text_truthy _ Hne), Hd.
Qed.

Lemma again_valid (rec : CleanedRow) :
  Transaction_ID rec <> "" -> num_truthy (Amount rec) = true ->
  isValidRow (rowOf rec) = true.
Proof.
  intros Hne Ha. unfold isValidRow.
  change (rowOf rec !! "Transaction_ID") with (Some (VStr (Transaction_ID rec))).
  change (rowOf rec !! "Amount") with (Some (VNum (Amount rec))).
  rewrite !first_truthy by (exact Ha || now apply text_truthy).
  rewrite (text_truthy _ Hne). cbn. now rewrite Ha.
Qed.

(** C8, as amended.  Let a record be an output of the normalizer whose
    Transaction_ID is neither the word null nor the word undefined.  Read
    again as an input row it is valid, and cleaning it yields a record with
    the same Transaction_ID, Amount, Merchant, Category, User_ID, Location
    and Payment_Method; the whole record is the same when its timestamp is
    parsed back to the same ISO text.  (The host is taken to print the amount
    as a text that it parses back to the same number.) *)
Theorem C8_renormalization (o o' : Oracle) (row : RawRow) (rec : CleanedRow) :
  cleanRow o row = Some rec ->
  parseFloat (strip_currency (numToString (Amount rec))) = Amount rec ->
  Transaction_ID rec <> "null" ->
  Transaction_ID rec <> "undefined" ->
  isValidRow (rowOf rec) = true /\
  exists rec',
    cleanRow o' (rowOf rec) = Some rec' /\
    Transaction_ID rec' = Transaction_ID rec /\
    Amount rec' = Amount rec /\
    Merchant rec' = Merchant rec /\
    Category rec' = Category rec /\
    User_ID rec' = User_ID rec /\
    Location rec' = Location rec /\
    Payment_Method rec' = Payment_Method rec /\
    (Timestamp rec <> "" ->
     dateToISO (VStr (Timestamp rec)) = Some (Timestamp rec) ->
     rec' = rec).
Proof.
  intros Hc Hparse Hnull Hundef.
  apply cleanRow_Some in Hc as (Ht & Ha & Hm & Hcat & Hu & Hts & Hl & Hpm).
  assert (Hne : Transaction_ID rec <> "")
    by (rewrite Ht; apply normalizeTransactionId_nonempty).
  assert (Htrim : trim (Transaction_ID rec) = Transaction_ID rec)
    by (rewrite Ht; apply normalizeTransactionId_trimmed).
  apply normalizeAmount_Some in Ha as (_ & Hnan & Hle).
  destruct (positive_amount _ Hnan Hle) as [_ Htruthy].
  assert (Hmt : truthy (Some (Merchant rec)) = true)
    by (rewrite Hm; now apply or_default_is_truthy).
  assert (Hut : truthy (Some (User_ID rec)) = true).
  { rewrite Hu. apply or_default_is_truthy. discriminate. }
  assert (Hlt : truthy (Some (Location rec)) = true)
    by (rewrite Hl; now apply or_default_is_truthy).
  apply normalizeCategory_member in Hcat.
  apply normalizePaymentMethod_member in Hpm.
  split; [now apply again_valid |].
  assert (Hagain : cleanRow o' (rowOf rec) =
    Some {| Transaction_ID := Transaction_ID rec; Amount := Amount rec;
            Merchant := Merchant rec; Category := Category rec;
            User_ID := User_ID rec;
            Timestamp := normalizeTimestamp o' (rowOf rec);
            Location := Location rec; Payment_Method := Payment_Method rec |}).
  { unfold cleanRow.
    rewrite again_id, again_amount, again_merchant, again_category,
      again_user, again_location, again_method by assumption.
    apply String.eqb_neq in Hne. now rewrite Hne, Htruthy. }
  eexists. split; [exact Hagain |]. cbn.
  repeat (split; [reflexivity |]).
  intros Hts1 Hts2. rewrite again_timestamp by assumption.
  now destruct rec.
Qed.

End Normalizer.

(** *** Numerals on the decimal host

    A numeral is never read as NaN by [parseFloat_dec]: the amounts that
    the normalizer rejects as NaN are among the texts that are not numerals.
    The converse fails: a text may start with a numeral and go on. *)

Lemma read_digits_from (s : string) (acc : Z) (cnt : nat) :
  snd (fst (read_digits s acc cnt)) = (cnt + snd (fst (read_digits s 0 0)))%nat /\
  snd (read_digits s acc cnt) = snd (read_digits s 0 0).
Proof.
  revert acc cnt.
  induction s as [| c r IH]; intros acc cnt; [cbn; split; [lia | reflexivity] |].
  cbn [read_digits]. destruct (digit_of c) as [d |]; [| cbn; split; [lia | reflexivity]].
  destruct (IH (acc * 10 + d)%Z (S cnt)) as [-> ->].
  destruct (IH (0 * 10 + d)%Z 1%nat) as [-> ->]. split; [lia | reflexivity].
Qed.

Lemma read_digits_head (s : string) :
  snd (fst (read_digits s 0 0)) <> 0%nat ->
  exists c r d, s = String c r /\ digit_of c = Some d.
Proof.
  destruct s as [| c r]; [cbn; congruence |].
  cbn [read_digits]. destruct (digit_of c) as [d |] eqn:E; [eauto | cbn; congruence].
Qed.

Lemma read_digits_none (s : string) :
  snd (fst (read_digits s 0 0)) = 0%nat -> snd (read_digits s 0 0) = s.
Proof.
  destruct s as [| c r]; [reflexivity |].
  cbn [read_digits]. destruct (digit_of c) as [d |]; [| reflexivity].
  destruct (read_digits_from r (0 * 10 + d)%Z 1%nat) as [-> _]. discriminate.
Qed.

Lemma read_sign_cases (s : string) :
  (exists r, s = String "-" r /\ read_sign s = (true, r)) \/
  (exists r, s = String "+" r /\ read_sign s = (false, r)) \/
  (read_sign s = (false, s)).
Proof.
  destruct s as [| c r]; [right; right; reflexivity |].
  destruct c as [[] [] [] [] [] [] [] []];
    try (right; right; reflexivity);
    [right; left | left]; exists r; split; reflexivity.
Qed.

(** What [parseFloat_dec] does once the sign is read. *)
Local Abbreviation parse_unsigned neg s :=
  (if String.prefix "Infinity" s then (if neg then NegInf else PosInf)
   else
     let '(ip, ic, s1) := read_digits s 0 0 in
     let '(m, fc, s2) :=
       match s1 with
       | String "." r => read_digits r ip 0
       | _ => (ip, 0%nat, s1)
       end in
     if (ic + fc =? 0)%nat then NaN
     else
       let e := (read_exponent s2 - Z.of_nat fc)%Z in
       let q := (inject_Z m * Qpower 10 e)%Q in
       Fin (Qred (if neg then - q else q))).

Lemma unsigned_numeral_parsed (neg : bool) (s : string) :
  unsigned_numeral s = true ->
  isNaN (parse_unsigned neg s) = false /\
  exists c r, s = String c r /\ is_space c = false /\ read_sign s = (false, s).
Proof.
  unfold unsigned_numeral.
  destruct (read_digits s 0 0) as [[ip ic] s1] eqn:E.
  intros Hnum.
  assert (Hhead : exists c r, s = String c r /\
            (c = "."%char \/ exists d, digit_of c = Some d)).
  { destruct (Nat.eq_dec ic 0) as [-> | Hic].
    - pose proof (read_digits_none s) as Hs. rewrite E in Hs. cbn in Hs.
      specialize (Hs eq_refl). subst s1.
      destruct s as [| c r]; [discriminate |].
      exists c, r. split; [reflexivity |]. left.
      destruct c as [[] [] [] [] [] [] [] []]; try discriminate. reflexivity.
    - destruct (read_digits_head s) as (c & r & d & -> & Hd);
        [rewrite E; exact Hic |].
      exists c, r. split; [reflexivity | right; eauto]. }
  destruct Hhead as (c & r & -> & Hc).
  assert (Hfacts : is_space c = false /\
                   String.prefix "Infinity" (String c r) = false /\
                   read_sign (String c r) = (false, String c r)).
  { destruct Hc as [-> | [d Hd]]; [repeat split |].
    destruct c as [[] [] [] [] [] [] [] []]; vm_compute in Hd; try discriminate;
      repeat split. }
  destruct Hfacts as (Hsp & HI & Hsign).
  split; [| eauto].
  rewrite HI.
  destruct s1 as [| c1 r1].
  - apply negb_true_iff in Hnum. rewrite Nat.add_0_r, Hnum. reflexivity.
  - destruct (Ascii.eqb c1 ".") eqn:Edot.
    + apply Ascii.eqb_eq in Edot. subst c1.
      destruct (read_digits r1 0 0) as [[m0 fc] s2] eqn:E1.
      apply andb_true_iff in Hnum as [_ Hnum]. apply negb_true_iff in Hnum.
      destruct (read_digits r1 ip 0) as [[m fc'] s2'] eqn:E2.
      pose proof (read_digits_from r1 ip 0) as [Hcnt _].
      rewrite E1, E2 in Hcnt. cbn in Hcnt. subst fc'. rewrite Hnum. reflexivity.
    + destruct c1 as [[] [] [] [] [] [] [] []]; discriminate.
Qed.

Lemma numeric_text_is_parsed (s : string) :
  numeric_text s = true -> isNaN (parseFloat_dec s) = false.
Proof.
  unfold numeric_text, parseFloat_dec.
  destruct (read_sign_cases s) as [(r & -> & E) | [(r & -> & E) | E]].
  - rewrite E. intros Hnum.
    change (trimStart (String "-" r)) with (String "-" r). rewrite E.
    exact (proj1 (unsigned_numeral_parsed true r Hnum)).
  - rewrite E. intros Hnum.
    change (trimStart (String "+" r)) with (String "+" r). rewrite E.
    exact (proj1 (unsigned_numeral_parsed false r Hnum)).
  - rewrite E. intros Hnum.
    destruct (unsigned_numeral_parsed false s Hnum) as (Hp & c & r & -> & Hsp & _).
    cbn [trimStart]. rewrite Hsp, E. exact Hp.
Qed.

(** A row whose amount is read as NaN has an amount text that is no
    numeral. *)
Lemma NaN_amount_is_not_numeric (row : RawRow) :
  isNaN (parsedAmount row) = true ->
  numeric_text (strip_currency (String_of (amountField row))) = false.
Proof.
  unfold parsedAmount. intros Hnan.
  destruct (numeric_text _) eqn:E; [| reflexivity].
  apply numeric_text_is_parsed in E.
  change parseFloat with parseFloat_dec in Hnan. congruence.
Qed.

(** *** The claims on concrete rows *)

(** C3: a row without any payment-method field gets credit_card, not
    other; and a payment method given as a number makes the helper throw, so
    that the row is dropped. *)
Lemma C3_counterexample :
  (methodField raw_minimal = None /\
   normalizePaymentMethod raw_minimal = Ok "credit_card" /\
   normalizePaymentMethod raw_minimal <> Ok "other") /\
  (normalizePaymentMethod raw_numeric_method = Throw /\
   cleanRow (oracle 0) raw_numeric_method = None).
Proof. repeat split. discriminate. Qed.

Lemma C3_witness :
  exists m,
    normalizePaymentMethod raw_crypto = Ok m /\ In m validMethods /\ m = "other".
Proof.
  destruct (C3_payment_method_normalization (oracle 0) raw_crypto eq_refl)
    as (m & Hm & Hin & _ & Hother & _).
  exists m. repeat split; try assumption.
  apply (Hother "Bitcoin"); [reflexivity | discriminate | reflexivity].
Defined.



Lemma C7_witness :
  cleanData (fun _ => oracle 0) [raw_crypto; raw_bad_amount] =
    [{| Transaction_ID := "T-3"; Amount := Fin (151 # 2);
        Merchant := VStr "Unknown Merchant"; Category := "Other";
        User_ID := VStr "USER-4711"; Timestamp := "2023-11-14T22:13:20.000Z";
        Location := VStr "Unknown"; Payment_Method := "other" |}] /\
  normalizeCategory raw_crypto = Ok "Other".
Proof.
  split; [reflexivity |].
  assert (Hin : In {| Transaction_ID := "T-3"; Amount := Fin (151 # 2);
        Merchant := VStr "Unknown Merchant"; Category := "Other";
        User_ID := VStr "USER-4711"; Timestamp := "2023-11-14T22:13:20.000Z";
        Location := VStr "Unknown"; Payment_Method := "other" |}
      (cleanData (fun _ => oracle 0) [raw_crypto; raw_bad_amount]))
    by (left; reflexivity).
  destruct (C7_normalized_record_invariant _ _ _ Hin) as (_ & _ & _ & Hother).
  apply (Hother raw_crypto "Crypto"); [reflexivity |].
  intros cat Hcat. cbn in Hcat.
  destruct Hcat as [<- | [<- | [<- | [<- | [<- | [<- | [<- | []]]]]]]]; discriminate.
Defined.

(** C8: the identifier of the row is the word null between two blanks.
    The normalizer keeps it, trimmed; cleaning the result again replaces the
    identifier by a generated one. *)
Lemma C8_counterexample :
  exists rec rec',
    cleanRow (oracle 0) raw_null_id = Some rec /\
    cleanRow (oracle 0) (rowOf rec) = Some rec' /\
    Transaction_ID rec = "null" /\
    Transaction_ID rec' = "TXN-1700000000000-k3j9x2ab" /\
    Transaction_ID rec' <> Transaction_ID rec.
Proof.
  eexists. eexists. split; [reflexivity |]. split; [reflexivity |].
  repeat split. discriminate.
Qed.

Lemma C8_witness :
  cleanRow (oracle 0) raw_atm = Some clean_atm /\
  cleanRow (oracle (1 # 2)) (rowOf clean_atm) = Some clean_atm.
Proof.
  assert (Hc : cleanRow (oracle 0) raw_atm = Some clean_atm) by reflexivity.
  split; [exact Hc |].
  destruct (C8_renormalization (oracle 0) (oracle (1 # 2)) raw_atm clean_atm Hc)
    as (_ & rec' & Hagain & _ & _ & _ & _ & _ & _ & _ & Hsame);
    [reflexivity | discriminate | discriminate |].
  rewrite Hagain. f_equal. apply Hsame; [discriminate | reflexivity].
Defined.

End NormalizerProps.

(** * Properties of the alert documents *)

Module AlertProps.

Import FraudDetectionModel DatabaseService DecimalHost Samples.

Lemma isAlert_spec (pred : Prediction) :
  isAlert pred = true <-> risk_level pred = HIGH \/ fraud_flag pred = 1%Z.
Proof.
  unfold isAlert. rewrite orb_true_iff, Z.eqb_eq.
  destruct (risk_level pred); cbn; intuition discriminate.
Qed.

Lemma filter_all {A : Type} (f : A -> bool) (l : list A) :
  (forall x, In x l -> f x = true) -> List.filter f l = l.
Proof.
  induction l as [| a l IH]; intros Hall; [reflexivity |].
  cbn. rewrite (Hall a) by now left.
  f_equal. apply IH. intros x Hx. apply Hall. now right.
Qed.

(** The object literal of an alert has the five keys Transaction_ID,
    risk_level, reason, created_at and updated_at, and no other. *)
Lemma alertDoc_keys (o : Oracle) (pred : Prediction) :
  dom (alertDoc o pred) =
    ({["Transaction_ID"; "risk_level"; "reason"; "created_at"; "updated_at"]} : gset string).
Proof.
  unfold alertDoc. rewrite !dom_insert_L, dom_empty_L. set_solver.
Qed.

Lemma alertDoc_status (o : Oracle) (pred : Prediction) :
  alertDoc o pred !! "status" = None.
Proof. reflexivity. Qed.

(** Predictions that all carry an identifier: the alerts are the images of
    those of tier HIGH or with the flag set, in order. *)
Lemma alertDocs_filter (os : nat -> Oracle) (predictions : list Prediction) :
  (forall pred, In pred predictions -> Transaction_ID pred <> "") ->
  alertDocs os predictions =
    imap (fun i pred => alertDoc (os i) pred) (List.filter isAlert predictions).
Proof.
  intros Hid. unfold alertDocs. apply filter_all.
  intros doc Hdoc. apply list_elem_of_In, elem_of_lookup_imap in Hdoc
    as (i & pred & -> & Hlook).
  apply list_elem_of_lookup_2, list_elem_of_In, filter_In in Hlook as [Hin _].
  change (alertDoc (os i) pred !! "Transaction_ID")
    with (Some (VStr (Transaction_ID pred))).
  cbn. apply negb_true_iff, String.eqb_neq. now apply Hid.
Qed.

(** A prediction of the scorer always carries an identifier, so none of
    them is dropped by the last filter of [alertDocs]. *)
Lemma predictRow_has_id `{Host} (o : Oracle) (row : Row.t) :
  Transaction_ID (predictRow o row) <> "".
Proof.
  cbn [predictRow Transaction_ID].
  destruct (String.eqb (Row.Transaction_ID row) "") eqn:E;
    [discriminate | now apply String.eqb_neq].
Qed.

Lemma alertDocs_of_scored `{Host} (os os' : nat -> Oracle) (data : list Row.t) :
  alertDocs os (ruleBasedPrediction os' data) =
    imap (fun i pred => alertDoc (os i) pred)
      (List.filter isAlert (ruleBasedPrediction os' data)).
Proof.
  apply alertDocs_filter. intros pred Hin.
  apply list_elem_of_In, elem_of_lookup_imap in Hin as (i & row & -> & _).
  apply predictRow_has_id.
Qed.

(** No alert document has a status. *)
Lemma alertDocs_status (os : nat -> Oracle) (predictions : list Prediction) (doc : Doc) :
  In doc (alertDocs os predictions) -> doc !! "status" = None.
Proof.
  unfold alertDocs. intros Hdoc. apply filter_In in Hdoc as [Hdoc _].
  apply list_elem_of_In, elem_of_lookup_imap in Hdoc as (i & pred & -> & _).
  apply alertDoc_status.
Qed.

(** C2: for one prediction of tier HIGH the alert list holds exactly the
    document of that prediction, and the document has no status field: its
    status is not the text open. *)
Theorem C2_alert_document_has_no_status :
  snd (saveTransactions (fun _ => oracle 0) [pred_high])
    = [alertDoc (oracle 0) pred_high] /\
  alertDoc (oracle 0) pred_high !! "Transaction_ID" = Some (VStr "T-1001") /\
  alertDoc (oracle 0) pred_high !! "risk_level" = Some (VStr "HIGH") /\
  alertDoc (oracle 0) pred_high !! "status" = None /\
  alertDoc (oracle 0) pred_high !! "status" <> Some (VStr "open").
Proof.
  split; [reflexivity |]. split; [reflexivity |]. split; [reflexivity |].
  split; [reflexivity | discriminate].
Qed.

End AlertProps.

(** * Further properties of the rule scorer *)

Module ScorerExtra.

Import FraudDetectionModel DatabaseService RuleShape DecimalHost Samples NumFacts.
Import MoreSamples ScorerProps.
Local Open Scope Q_scope.

(** *** What one rule alone contributes *)

Lemma amountRule_above_500 (a : jsnum) :
  js_gt a (Fin 500) = true -> 0.4 <= fst (amountRule a (0, [])).
Proof.
  intros H5. unfold amountRule. rewrite H5.
  destruct (js_gt a (Fin 1000)); cbn; lra.
Qed.

Lemma categoryRule_online (c : string) :
  c = "ATM" \/ c = "Online" \/ c = "E-commerce" ->
  0.3 <= fst (categoryRule c (0, [])).
Proof.
  intros [-> | [-> | ->]]; cbn; lra.
Qed.

Lemma nightRule_set (h : jsnum) : 0.3 <= fst (nightRule true h (0, [])).
Proof. cbn. lra. Qed.

Lemma foreignRule_set : 0.4 <= fst (foreignRule true (0, [])).
Proof. cbn. lra. Qed.

(** *** The reasons *)

Lemma fire_one_more (w : Q) (msg : string) : msg <> "" -> one_more (fire w msg).
Proof.
  intros Hm s. cbn [fire snd]. rewrite length_app. cbn [length].
  split; [lia |]. split.
  - intros Hall. apply Forall_app. split; [exact Hall |].
    constructor; [exact Hm | constructor].
  - intros r Hr. apply in_or_app. now left.
Qed.

Lemma keep_one_more : one_more (fun s => s).
Proof.
  intros s. split; [lia |]. split; [tauto | tauto].
Qed.

Ltac rule_cases :=
  repeat match goal with
  | |- one_more (fun s => if ?c then _ else _) => destruct c
  | |- one_more (fun s => fire _ _ s) => apply fire_one_more; discriminate
  | |- one_more (fun s => s) => apply keep_one_more
  end.

Lemma amountRule_one_more a : one_more (amountRule a).
Proof. unfold amountRule. rule_cases. Qed.

Lemma nightRule_one_more n h : one_more (nightRule n h).
Proof. unfold nightRule. rule_cases. Qed.

Lemma categoryRule_one_more c : one_more (categoryRule c).
Proof. unfold categoryRule. rule_cases. Qed.

Lemma foreignRule_one_more f : one_more (foreignRule f).
Proof. unfold foreignRule. rule_cases. Qed.

Lemma paymentRule_one_more p : one_more (paymentRule p).
Proof. unfold paymentRule. rule_cases. Qed.

Lemma earlyRule_one_more h : one_more (earlyRule h).
Proof. unfold earlyRule. rule_cases. Qed.

Lemma roundRule_one_more a : one_more (roundRule a).
Proof. unfold roundRule. rule_cases. Qed.

Lemma concat_nonempty (sep x : string) (rest : list string) :
  x <> "" -> String.concat sep (x :: rest) <> "".
Proof.
  intros Hx. destruct x as [| c x]; [congruence |].
  destruct rest; cbn; discriminate.
Qed.

Lemma imap_ids {A B : Type} (ida : A -> string) (idb : B -> string)
    (g : nat -> A -> B) (l : list A) :
  Forall (fun a => forall i, idb (g i a) = ida a) l ->
  map idb (imap g l) = map ida l.
Proof.
  revert g. induction l as [| a l IH]; intros g Hall; [reflexivity |].
  inversion Hall as [| ? ? Ha Hl]; subst.
  rewrite imap_cons. cbn [map]. rewrite Ha. f_equal.
  apply IH. eapply Forall_impl; [exact Hl |]. intros b Hb i. apply Hb.
Qed.

Section Scorer.
Context `{Host}.

Lemma rules_reasons (o : Oracle) (row : Row.t) :
  (length (reasons o row) <= 7)%nat /\
  Forall (fun r => r <> "") (reasons o row).
Proof.
  unfold reasons, rules.
  set (s0 := (0.2, []) : Acc).
  destruct (amountRule_one_more (Row.Amount row) s0) as (L1 & F1 & _).
  set (s1 := amountRule (Row.Amount row) s0) in *.
  destruct (nightRule_one_more (Row.Is_Night_Transaction row)
              (Row.Hour_of_Day row) s1) as (L2 & F2 & _).
  set (s2 := nightRule _ _ s1) in *.
  destruct (categoryRule_one_more (Row.Category row) s2) as (L3 & F3 & _).
  set (s3 := categoryRule _ s2) in *.
  destruct (foreignRule_one_more (Row.Is_Foreign row) s3) as (L4 & F4 & _).
  set (s4 := foreignRule _ s3) in *.
  destruct (paymentRule_one_more (Row.Payment_Method row) s4) as (L5 & F5 & _).
  set (s5 := paymentRule _ s4) in *.
  destruct (earlyRule_one_more (hourOf o row) s5) as (L6 & F6 & _).
  set (s6 := earlyRule _ s5) in *.
  destruct (roundRule_one_more (Row.Amount row) s6) as (L7 & F7 & _).
  assert (L0 : length (snd s0) = 0%nat) by reflexivity.
  assert (F0 : Forall (fun r => r <> "") (snd s0)) by constructor.
  clearbody s6 s5 s4 s3 s2 s1 s0.
  split; [lia |]. apply F7, F6, F5, F4, F3, F2, F1, F0.
Qed.

Lemma alert_test_is_flag (o : Oracle) (row : Row.t) :
  isAlert (predictRow o row) = Z.eqb (fraud_flag (predictRow o row)) 1.
Proof.
  unfold isAlert. cbn [predictRow risk_level fraud_flag]. unfold getRiskLevel.
  set (p := fraudProb o row).
  qcases; cbn; try reflexivity; lra.
Qed.

(** X1.  On every prediction of the scorer the tier HIGH comes with the
    flag: the test [risk_level === 'HIGH' || fraud_flag === 1] of the alert
    filter is the test of the flag alone.  A prediction without the flag is
    LOW, or its probability is exactly 0.3. *)
Theorem X1_high_is_flagged (o : Oracle) (row : Row.t) :
  let r := predictRow o row in
  isAlert r = Z.eqb (fraud_flag r) 1 /\
  (risk_level r = HIGH -> fraud_flag r = 1%Z) /\
  (fraud_flag r = 0%Z -> risk_level r = LOW \/ fraudProb o row == 0.3).
Proof.
  intros r. subst r. split; [apply alert_test_is_flag |].
  cbn [predictRow risk_level fraud_flag]. unfold getRiskLevel.
  set (p := fraudProb o row).
  qcases; cbn; repeat split; intros; try discriminate; try lra; auto.
Qed.

Lemma strong_signal_base (o : Oracle) (row : Row.t) :
  js_gt (Row.Amount row) (Fin 500) = true \/
  Row.Is_Night_Transaction row = true \/
  Row.Category row = "ATM" \/ Row.Category row = "Online" \/
  Row.Category row = "E-commerce" \/
  Row.Is_Foreign row = true ->
  0.5 <= baseScore o row.
Proof.
  intros Hsig. rewrite baseScore_sum.
  pose proof (amountRule_weight (Row.Amount row)).
  pose proof (nightRule_weight (Row.Is_Night_Transaction row) (Row.Hour_of_Day row)).
  pose proof (categoryRule_weight (Row.Category row)).
  pose proof (foreignRule_weight (Row.Is_Foreign row)).
  pose proof (paymentRule_weight (Row.Payment_Method row)).
  pose proof (earlyRule_weight (hourOf o row)).
  pose proof (roundRule_weight (Row.Amount row)).
  destruct Hsig as [Ha | [Hn | [Hc | [Hc | [Hc | Hf]]]]].
  - pose proof (amountRule_above_500 _ Ha). lra.
  - rewrite Hn. pose proof (nightRule_set (Row.Hour_of_Day row)). lra.
  - pose proof (categoryRule_online _ (or_introl Hc)). lra.
  - pose proof (categoryRule_online _ (or_intror (or_introl Hc))). lra.
  - pose proof (categoryRule_online _ (or_intror (or_intror Hc))). lra.
  - rewrite Hf. pose proof foreignRule_set. lra.
Qed.

(** A base score of 0.5 or more gives the highest tier. *)
Lemma high_from_base (o : Oracle) (row : Row.t) :
  0 <= random o -> 0.5 <= baseScore o row ->
  risk_level (predictRow o row) = HIGH /\
  fraud_flag (predictRow o row) = 1%Z /\
  0.5 <= ml_pred_prob (predictRow o row).
Proof.
  intros Hu Hbase.
  assert (Hp : 0.5 <= fraudProb o row).
  { unfold fraudProb, fraudScore.
    destruct (Q.max_spec 0.1 (Qmin 1 (baseScore o row + random o * 0.3)))
      as [[? ->] | [? ->]];
    destruct (Q.min_spec 1 (baseScore o row + random o * 0.3)) as [[? E] | [? E]];
    rewrite ?E in *; lra. }
  pose proof (fraudProb_clamped o row) as Hc.
  split; [| split].
  - cbn [predictRow risk_level]. now apply getRiskLevel_HIGH.
  - cbn [predictRow fraud_flag].
    assert (E : Qltb 0.3 (fraudProb o row) = true) by (apply Qltb_true; lra).
    now rewrite E.
  - cbn [predictRow ml_pred_prob].
    apply (toFixed4_lower 5000); [reflexivity | lra | lra].
Qed.

(** X2.  One strong signal is enough for the highest tier: with a random
    value that is not negative, a row whose amount is above 500, or whose
    night flag is set, or whose category is ATM, Online or E-commerce, or
    whose foreign flag is set, is scored HIGH and flagged, and the stored
    probability is at least 0.5. *)
Theorem X2_one_signal_is_high (o : Oracle) (row : Row.t) :
  0 <= random o ->
  js_gt (Row.Amount row) (Fin 500) = true \/
  Row.Is_Night_Transaction row = true \/
  Row.Category row = "ATM" \/ Row.Category row = "Online" \/
  Row.Category row = "E-commerce" \/
  Row.Is_Foreign row = true ->
  risk_level (predictRow o row) = HIGH /\
  fraud_flag (predictRow o row) = 1%Z /\
  0.5 <= ml_pred_prob (predictRow o row).
Proof.
  intros Hu Hsig. apply high_from_base; [exact Hu |].
  now apply strong_signal_base.
Qed.

(** X3.  The reason of a prediction is never the empty text, and at most
    seven rules can leave a reason. *)
Theorem X3_reason_never_empty (o : Oracle) (row : Row.t) :
  reason (predictRow o row) <> "" /\
  (length (reasons o row) <= 7)%nat.
Proof.
  destruct (rules_reasons o row) as [Hlen Hall].
  split; [| exact Hlen].
  cbn [predictRow reason].
  destruct (reasons o row) as [| x rest]; [discriminate |].
  apply concat_nonempty. now inversion Hall.
Qed.

Lemma prediction_ids (os : nat -> Oracle) (data : list Row.t) :
  Forall (fun row => Row.Transaction_ID row <> "") data ->
  map Transaction_ID (ruleBasedPrediction os data) = map Row.Transaction_ID data.
Proof.
  intros Hids. unfold ruleBasedPrediction.
  apply imap_ids. eapply Forall_impl; [exact Hids |].
  intros row Hrow i. cbn [predictRow Transaction_ID].
  apply String.eqb_neq in Hrow. now rewrite Hrow.
Qed.


End Scorer.

Lemma X2_witness :
  risk_level (predictRow (oracle 0) (withAmount (Fin 501) quiet)) = HIGH /\
  fraud_flag (predictRow (oracle 0) (withAmount (Fin 501) quiet)) = 1%Z.
Proof.
  assert (H0 : 0 <= random (oracle 0)) by (vm_compute; discriminate).
  destruct (X2_one_signal_is_high (oracle 0) (withAmount (Fin 501) quiet) H0)
    as (Hr & Hf & _); [left; reflexivity |].
  split; assumption.
Defined.


End ScorerExtra.

(** * Further properties of the normalizer *)

Module NormalizerExtra.

Import DataPreprocessor DecimalHost Samples MoreSamples NumFacts.
Import NormalizerProps.

Lemma filter_sublist {A : Type} (f : A -> bool) (l : list A) :
  sublist (List.filter f l) l.
Proof.
  induction l as [| a l IH]; [constructor |].
  cbn. destruct (f a); now constructor.
Qed.

Lemma omap_imap_sublist {A B : Type} (g : nat -> A -> option B) (l : list A) :
  exists kept,
    sublist kept l /\
    Forall2 (fun a b => exists i, g i a = Some b) kept (omap id (imap g l)).
Proof.
  revert g. induction l as [| a l IH]; intros g.
  - exists []. split; constructor.
  - rewrite imap_cons. destruct (IH (g ∘ S)) as (kept & Hsub & Hall).
    assert (Hall' : Forall2 (fun a b => exists i, g i a = Some b) kept
                      (omap id (imap (g ∘ S) l))).
    { eapply Forall2_impl; [exact Hall |]. intros x y [i Hi]. now exists (S i). }
    cbn [omap list_omap]. unfold id at 1. destruct (g 0%nat a) as [b |] eqn:E.
    + exists (a :: kept). split; [now constructor |].
      constructor; [now exists 0%nat | exact Hall'].
    + exists kept. split; [now constructor | exact Hall'].
Qed.

Section Normalizer.
Context `{Host}.

(** X5.  The normalizer keeps the order of the rows: its output is, record
    by record and in the same order, the cleaning of a sub-sequence of the
    input. *)
Theorem X5_cleanData_keeps_order (os : nat -> Oracle) (data : list RawRow) :
  exists kept,
    sublist kept data /\
    Forall2 (fun row rec => exists i, cleanRow (os i) row = Some rec)
      kept (cleanData os data).
Proof.
  unfold cleanData.
  destruct (omap_imap_sublist (fun i row => cleanRow (os i) row)
              (List.filter isValidRow data)) as (kept & Hsub & Hall).
  exists kept. split; [| exact Hall].
  etransitivity; [exact Hsub | apply filter_sublist].
Qed.

(** X6.  The validity test reads the amount under the keys Amount and
    amount only.  A row that has neither is invisible to the normalizer, the
    output is the one of the batch without it, even when it holds an amount
    under the key AMOUNT that [normalizeAmount] would read. *)
Theorem X6_row_without_amount_key
    (os : nat -> Oracle) (l1 l2 : list RawRow) (row : RawRow) :
  truthy (row !! "Amount") = false ->
  truthy (row !! "amount") = false ->
  isValidRow row = false /\
  cleanData os (l1 ++ row :: l2) = cleanData os (l1 ++ l2).
Proof.
  intros HA Ha.
  assert (Hinv : isValidRow row = false).
  { unfold isValidRow, or_else at 4. rewrite HA, Ha.
    now rewrite andb_false_r. }
  split; [exact Hinv |].
  unfold cleanData. rewrite !List.filter_app. cbn [List.filter]. now rewrite Hinv.
Qed.

(** X7.  Every record of the normalizer's output has a payment method
    among the five allowed values, a merchant, a user and a location that
    are not empty, and an identifier without surrounding white space. *)
Theorem X7_cleaned_fields
    (os : nat -> Oracle) (data : list RawRow) (rec : CleanedRow) :
  In rec (cleanData os data) ->
  In (Payment_Method rec) validMethods /\
  truthy (Some (Merchant rec)) = true /\
  truthy (Some (User_ID rec)) = true /\
  truthy (Some (Location rec)) = true /\
  trim (Transaction_ID rec) = Transaction_ID rec.
Proof.
  intros Hin.
  destruct (cleanData_provenance os data rec Hin) as (i & row & _ & _ & Hc).
  apply cleanRow_Some in Hc as (Ht & _ & Hm & _ & Hu & _ & Hl & Hpm).
  split; [now apply normalizePaymentMethod_member in Hpm |].
  split; [rewrite Hm; now apply or_default_is_truthy |].
  split; [rewrite Hu; apply or_default_is_truthy; discriminate |].
  split; [rewrite Hl; now apply or_default_is_truthy |].
  rewrite Ht. apply normalizeTransactionId_trimmed.
Qed.

End Normalizer.

Lemma X6_witness :
  (exists rec, cleanRow (oracle 0) raw_upper_amount = Some rec) /\
  cleanData (fun _ => oracle 0) [raw_atm; raw_upper_amount]
  = cleanData (fun _ => oracle 0) [raw_atm].
Proof.
  split; [eexists; reflexivity |].
  apply (X6_row_without_amount_key (fun _ => oracle 0) [raw_atm] []
           raw_upper_amount eq_refl eq_refl).
Defined.

Lemma X7_witness :
  In (Payment_Method clean_atm) validMethods /\
  truthy (Some (Location clean_atm)) = true.
Proof.
  assert (Hin : In clean_atm (cleanData (fun _ => oracle 0) [raw_atm]))
    by (left; reflexivity).
  destruct (X7_cleaned_fields _ _ _ Hin) as (Hp & _ & _ & Hl & _).
  split; assumption.
Defined.

End NormalizerExtra.

(** * Properties of feature engineering and of preprocessCSV *)

Module FeatureProps.

Import DataPreprocessor Features FraudDetectionModel Service RuleShape.
Import DecimalHost Samples MoreSamples NumFacts.
Import NormalizerProps ScorerProps ScorerExtra.

(** *** Positive numbers *)

Lemma js_add_positive (a b : jsnum) :
  a = Fin 0 \/ js_gt a (Fin 0) = true ->
  js_gt b (Fin 0) = true ->
  js_gt (js_add a b) (Fin 0) = true.
Proof.
  unfold js_gt, js_lt.
  intros [-> | Ha] Hb; destruct b as [| y | |]; try discriminate; try reflexivity.
  - apply Qltb_true in Hb. apply Qltb_true. cbn. lra.
  - destruct a as [| x | |]; try discriminate; try reflexivity.
    apply Qltb_true in Ha, Hb. apply Qltb_true. cbn. lra.
  - destruct a as [| x | |]; try discriminate; reflexivity.
Qed.

Lemma sum_positive {A : Type} (amount : A -> jsnum) (l : list A) (acc : jsnum) :
  acc = Fin 0 \/ js_gt acc (Fin 0) = true ->
  Forall (fun x => js_gt (amount x) (Fin 0) = true) l ->
  l <> [] ->
  js_gt (fold_left (fun sum x => js_add sum (amount x)) l acc) (Fin 0) = true.
Proof.
  revert acc. induction l as [| x l IH]; intros acc Hacc Hall Hne; [congruence |].
  inversion Hall as [| ? ? Hx Hl]; subst. cbn [fold_left].
  pose proof (js_add_positive acc (amount x) Hacc Hx) as Hpos.
  destruct l as [| y l']; [exact Hpos |].
  apply IH; [now right | exact Hl | discriminate].
Qed.

Lemma js_div_positive (a : jsnum) (n : nat) :
  js_gt a (Fin 0) = true -> (0 < n)%nat ->
  js_gt (js_div a (Fin (inject_Z (Z.of_nat n)))) (Fin 0) = true.
Proof.
  intros Ha Hn.
  assert (Hq : (0 < inject_Z (Z.of_nat n))%Q).
  { change 0%Q with (inject_Z 0). rewrite <- Zlt_Qlt. lia. }
  assert (E0 : Qeq_bool (inject_Z (Z.of_nat n)) 0 = false).
  { apply not_true_iff_false. rewrite Qeq_bool_iff. intros E. rewrite E in Hq.
    now apply Qlt_irrefl in Hq. }
  assert (El : Qltb (inject_Z (Z.of_nat n)) 0 = false)
    by (apply Qltb_false; now apply Qlt_le_weak).
  unfold js_gt, js_lt in *. destruct a as [| x | |]; try discriminate; cbn [js_div].
  - rewrite E0. apply Qltb_true in Ha. apply Qltb_true.
    apply Qlt_shift_div_l; [exact Hq |]. now rewrite Qmult_0_l.
  - now rewrite El.
Qed.

(** *** The distinct elements of a list *)

Lemma includes_In (l : list string) (c : string) : includes l c = true <-> In c l.
Proof.
  unfold includes. rewrite existsb_exists. split.
  - intros (x & Hx & E). apply String.eqb_eq in E. now subst.
  - intros Hc. exists c. split; [exact Hc | apply String.eqb_refl].
Qed.

Lemma distinct_from (l acc : list string) :
  NoDup acc ->
  let out := fold_left
               (fun acc c => if includes acc c then acc else (acc ++ [c])%list) l acc in
  NoDup out /\ (forall c, In c out <-> In c acc \/ In c l).
Proof.
  revert acc. induction l as [| x l IH]; intros acc Hnd; cbn [fold_left].
  - split; [exact Hnd |]. intros c. cbn. tauto.
  - destruct (includes acc x) eqn:E.
    + destruct (IH acc Hnd) as [Hn Hin]. split; [exact Hn |].
      intros c. rewrite Hin. cbn. apply includes_In in E.
      split; [tauto |]. intros [? | [<- | ?]]; tauto.
    + assert (Hx : ~ In x acc).
      { intros Hx. apply includes_In in Hx. congruence. }
      assert (Hnd' : NoDup (acc ++ [x])).
      { apply NoDup_ListNoDup, List.NoDup_app; repeat split.
        - now apply NoDup_ListNoDup.
        - constructor; [tauto | constructor].
        - intros y Hy [<- | []]. tauto. }
      destruct (IH (acc ++ [x])%list Hnd') as [Hn Hin]. split; [exact Hn |].
      intros c. rewrite Hin, in_app_iff. cbn. tauto.
Qed.

Lemma js_le_6_7 (h : jsnum) : js_le h (Fin 6) = true -> js_le h (Fin 7) = true.
Proof.
  destruct h as [| q | |]; cbn; try tauto.
  rewrite !Qle_bool_iff. intros Hq. eapply Qle_trans; [exact Hq | discriminate].
Qed.

(** A rule that fires leaves its reason, and the later rules keep it. *)
Lemma fire_reason (w : Q) (msg : string) (s : Acc) : In msg (snd (fire w msg s)).
Proof. cbn [fire snd]. apply in_or_app. right. now left. Qed.

Section Engineering.
Context `{Host}.
Variable Math_log : jsnum -> jsnum.

Lemma engineerRow_Throw (row : CleanedRow) :
  engineerRow Math_log row = Throw <->
  truthy (Some (Location row)) = true /\ is_number (Some (Location row)) = true.
Proof.
  unfold engineerRow.
  destruct (Location row) as [s | n]; cbn [lowerOf is_number];
    destruct (truthy _); split; try discriminate; try tauto;
    intros [? ?]; discriminate.
Qed.

Lemma engineerRow_Ok (row : CleanedRow) (e : EngineeredRow) :
  engineerRow Math_log row = Ok e ->
  cleaned e = row /\
  Features.Hour_of_Day e = getHours (Timestamp row) /\
  Features.Is_Night_Transaction e =
    (if js_ge (getHours (Timestamp row)) (Fin 22)
        || js_le (getHours (Timestamp row)) (Fin 6) then 1%Z else 0%Z).
Proof.
  unfold engineerRow.
  destruct (truthy _); [destruct (lowerOf _); [| discriminate] |];
    intros [= <-]; cbn; tauto.
Qed.

Lemma engineerFeatures_Ok (rows : list CleanedRow) (es : list EngineeredRow) :
  engineerFeatures Math_log rows = Ok es -> map cleaned es = rows.
Proof.
  revert es. induction rows as [| row rows IH]; intros es; cbn [engineerFeatures].
  - now intros [= <-].
  - destruct (engineerRow Math_log row) as [e |] eqn:E; [| discriminate].
    destruct (engineerFeatures Math_log rows) as [es' |]; [| discriminate].
    intros [= <-]. cbn [map]. apply engineerRow_Ok in E as [-> _].
    f_equal. now apply IH.
Qed.

(** X8.  Feature engineering fails, for the whole batch, exactly when a
    cleaned row carries a location that is a number (and not zero or NaN):
    [toLowerCase] is missing on it.  When it succeeds it returns one
    engineered row per cleaned row, in order, around the unchanged cleaned
    row. *)
Theorem X8_engineerFeatures_outcome (rows : list CleanedRow) :
  (engineerFeatures Math_log rows = Throw <->
   Exists (fun row => truthy (Some (Location row)) = true /\
                      is_number (Some (Location row)) = true) rows) /\
  (forall es, engineerFeatures Math_log rows = Ok es ->
     map cleaned es = rows /\ length es = length rows).
Proof.
  split.
  - induction rows as [| row rows IH]; cbn [engineerFeatures].
    + split; [discriminate | intros Hex; inversion Hex].
    + rewrite Exists_cons, <- IH, <- engineerRow_Throw.
      destruct (engineerRow Math_log row); [| tauto].
      destruct (engineerFeatures Math_log rows);
        split; try discriminate; try tauto; intros [? | ?]; discriminate.
  - intros es Hes. apply engineerFeatures_Ok in Hes.
    split; [exact Hes |]. rewrite <- Hes. now rewrite length_map.
Qed.

(** X9.  A row that is accepted by the normalizer and has no location
    under any of the keys Location, location, LOCATION, city gets the
    location Unknown, which does not contain "us": feature engineering marks
    it foreign, and the scorer, whatever its other fields and for every
    random value that is not negative, gives it the tier HIGH and the
    flag. *)
Theorem X9_missing_location_is_high
    (o o' : Oracle) (row : RawRow) (rec : CleanedRow) :
  cleanRow o row = Some rec ->
  truthy (or_else (row !! "Location")
            (or_else (row !! "location")
               (or_else (row !! "LOCATION") (row !! "city")))) = false ->
  (0 <= random o')%Q ->
  exists e,
    engineerRow Math_log rec = Ok e /\
    Location rec = VStr "Unknown" /\
    Features.Is_Foreign e = 1%Z /\
    risk_level (predictRow o' (scorerRow e)) = HIGH /\
    fraud_flag (predictRow o' (scorerRow e)) = 1%Z.
Proof.
  intros Hc Hloc Hu.
  apply cleanRow_Some in Hc as (_ & _ & _ & _ & _ & _ & Hl & _).
  assert (Hunknown : Location rec = VStr "Unknown").
  { rewrite Hl. unfold normalizeLocation, or_default.
    destruct (or_else _ _) as [x |]; [now rewrite Hloc | reflexivity]. }
  unfold engineerRow. rewrite Hunknown. cbn [truthy lowerOf].
  eexists. split; [reflexivity |]. split; [reflexivity |].
  split; [reflexivity |].
  destruct (high_from_base o' (scorerRow
    {| cleaned := rec;
       Features.Hour_of_Day := getHours (Timestamp rec);
       Features.Is_Night_Transaction :=
         if js_ge (getHours (Timestamp rec)) (Fin 22)
            || js_le (getHours (Timestamp rec)) (Fin 6) then 1%Z else 0%Z;
       Is_High_Amount := if js_gt (Amount rec) (Fin 1000) then 1%Z else 0%Z;
       Amount_Log := Math_log (js_add (Amount rec) (Fin 1));
       Category_Risk_Score := getCategoryRiskScore (Category rec);
       Features.Is_Foreign := 1 |}) Hu) as (Hr & Hf & _).
  - apply strong_signal_base. repeat right. reflexivity.
  - split; assumption.
Qed.

(** X10.  The two time rules overlap on an engineered row: when the hour
    of its timestamp is between 0 and 6, the night rule and the early-morning
    rule both fire, so that the base score is at least 0.75. *)
Theorem X10_time_rules_overlap
    (o : Oracle) (rec : CleanedRow) (e : EngineeredRow) :
  engineerRow Math_log rec = Ok e ->
  Timestamp rec <> "" ->
  js_ge (Features.Hour_of_Day e) (Fin 0) = true ->
  js_le (Features.Hour_of_Day e) (Fin 6) = true ->
  In "Night time transaction (high risk)" (reasons o (scorerRow e)) /\
  In "Very early morning transaction" (reasons o (scorerRow e)) /\
  (0.75 <= baseScore o (scorerRow e))%Q.
Proof.
  intros He Hts H0 H6.
  apply engineerRow_Ok in He as (Hcl & Hh & Hn).
  assert (Hnight : Row.Is_Night_Transaction (scorerRow e) = true).
  { cbn [scorerRow Row.Is_Night_Transaction]. rewrite Hn, <- Hh, H6.
    now rewrite orb_true_r. }
  assert (Hhour : hourOf o (scorerRow e) = Features.Hour_of_Day e).
  { unfold hourOf. cbn [scorerRow Row.Timestamp]. rewrite Hcl.
    apply String.eqb_neq in Hts. now rewrite Hts, Hh. }
  assert (Hearly : js_ge (hourOf o (scorerRow e)) (Fin 0)
                   && js_le (hourOf o (scorerRow e)) (Fin 7) = true).
  { rewrite Hhour, H0. now apply js_le_6_7. }
  split; [| split].
  - unfold reasons, rules.
    apply roundRule_one_more, earlyRule_one_more, paymentRule_one_more,
      foreignRule_one_more, categoryRule_one_more.
    unfold nightRule. rewrite Hnight. apply fire_reason.
  - unfold reasons, rules. apply roundRule_one_more.
    unfold earlyRule. rewrite Hearly. apply fire_reason.
  - rewrite baseScore_sum.
    pose proof (amountRule_weight (Row.Amount (scorerRow e))).
    pose proof (categoryRule_weight (Row.Category (scorerRow e))).
    pose proof (foreignRule_weight (Row.Is_Foreign (scorerRow e))).
    pose proof (paymentRule_weight (Row.Payment_Method (scorerRow e))).
    pose proof (roundRule_weight (Row.Amount (scorerRow e))).
    rewrite Hnight.
    pose proof (nightRule_set (Row.Hour_of_Day (scorerRow e))).
    assert (Hw : (0.25 <= fst (earlyRule (hourOf o (scorerRow e)) (0, [])))%Q).
    { unfold earlyRule. rewrite Hearly. cbn. lra. }
    lra.
Qed.

Lemma preprocessCSV_Done (os : nat -> Oracle) (rawData : list RawRow)
    (r : PreprocessResult) :
  preprocessCSV Math_log os rawData = Done r ->
  map cleaned (data r) = cleanData os rawData /\
  data r <> [] /\
  originalRows r = length rawData /\
  cleanedRows r = length (data r) /\
  stats r = getPreprocessingStats rawData (data r).
Proof.
  unfold preprocessCSV.
  destruct (engineerFeatures Math_log (cleanData os rawData)) as [es |] eqn:E;
    [| discriminate].
  apply engineerFeatures_Ok in E.
  destruct es as [| e es]; [discriminate |].
  cbn [writeCSV]. intros [= <-]. cbn. repeat split; try assumption. discriminate.
Qed.

Lemma cleaned_amount_positive (os : nat -> Oracle) (rawData : list RawRow)
    (rec : CleanedRow) :
  In rec (cleanData os rawData) -> js_gt (Amount rec) (Fin 0) = true.
Proof.
  intros Hin.
  destruct (cleanData_provenance os rawData rec Hin) as (i & row & _ & _ & Hc).
  apply cleanRow_Some in Hc as (_ & Ha & _).
  apply normalizeAmount_Some in Ha as (_ & Hn & Hl).
  now apply positive_amount.
Qed.

(** X11.  [preprocessCSV] fails with the error "No data to write" exactly
    when no row survives the cleaning (an empty file included).  When it
    succeeds, its data are the engineered versions of the cleaned rows, in
    order; at least one row and at most as many rows as were read are left,
    and the removed and the cleaned rows add up to the rows read. *)
Theorem X11_preprocessCSV_outcome (os : nat -> Oracle) (rawData : list RawRow) :
  (preprocessCSV Math_log os rawData = Failed (Error "No data to write") <->
   cleanData os rawData = []) /\
  (forall r, preprocessCSV Math_log os rawData = Done r ->
     map cleaned (data r) = cleanData os rawData /\
     originalRows r = length rawData /\
     (0 < cleanedRows r <= originalRows r)%nat /\
     (removedRows (stats r) + Z.of_nat (cleanedRows r)
      = Z.of_nat (originalRows r))%Z /\
     (0 <= removedRows (stats r))%Z).
Proof.
  split.
  - unfold preprocessCSV.
    destruct (engineerFeatures Math_log (cleanData os rawData)) as [es |] eqn:E.
    + apply engineerFeatures_Ok in E. rewrite <- E.
      destruct es as [| e es]; cbn [writeCSV map]; split;
        try reflexivity; discriminate.
    + split; [discriminate |]. intros Hnil. rewrite Hnil in E. discriminate.
  - intros r Hr.
    destruct (preprocessCSV_Done os rawData r Hr) as (Hd & Hne & Ho & Hc & Hs).
    pose proof (cleanData_length os rawData) as Hlen.
    rewrite <- Hd, length_map in Hlen.
    assert (Hpos : (0 < length (data r))%nat).
    { destruct (data r); [congruence | cbn; lia]. }
    rewrite Hs. cbn [getPreprocessingStats removedRows]. rewrite Hc, Ho.
    repeat split; try assumption; lia.
Qed.

(** X12.  When [preprocessCSV] succeeds the average amount of its
    statistics is a number above zero. *)
Theorem X12_average_amount_positive
    (os : nat -> Oracle) (rawData : list RawRow) (r : PreprocessResult) :
  preprocessCSV Math_log os rawData = Done r ->
  js_gt (avgAmount (stats r)) (Fin 0) = true.
Proof.
  intros Hr.
  destruct (preprocessCSV_Done os rawData r Hr) as (Hd & Hne & _ & _ & Hs).
  rewrite Hs. cbn [getPreprocessingStats avgAmount].
  apply js_div_positive.
  - apply (sum_positive (fun row => Amount (cleaned row))); [now left | | exact Hne].
    apply List.Forall_forall. intros e He.
    apply (cleaned_amount_positive os rawData). rewrite <- Hd.
    apply in_map_iff. now exists e.
  - destruct (data r); [congruence | cbn; lia].
Qed.

(** X13.  When [preprocessCSV] succeeds the categories of its statistics
    are the categories of its rows, each listed once: they are among the
    seven allowed ones, so there are at most seven. *)
Theorem X13_categories_of_statistics
    (os : nat -> Oracle) (rawData : list RawRow) (r : PreprocessResult) :
  preprocessCSV Math_log os rawData = Done r ->
  List.NoDup (categories (stats r)) /\
  (forall c, In c (categories (stats r)) <->
             exists e, In e (data r) /\ Category (cleaned e) = c) /\
  incl (categories (stats r)) validCategories /\
  (length (categories (stats r)) <= 7)%nat.
Proof.
  intros Hr.
  destruct (preprocessCSV_Done os rawData r Hr) as (Hd & _ & _ & _ & Hs).
  rewrite Hs. cbn [getPreprocessingStats categories]. unfold distinct.
  destruct (distinct_from (map (fun row => Category (cleaned row)) (data r)) [])
    as [Hnd Hin]; [constructor |].
  cbv zeta in Hnd, Hin. apply NoDup_ListNoDup in Hnd.
  assert (Hmem : forall c,
    In c (fold_left (fun acc c => if includes acc c then acc else (acc ++ [c])%list)
            (map (fun row => Category (cleaned row)) (data r)) []) <->
    exists e, In e (data r) /\ Category (cleaned e) = c).
  { intros c. rewrite Hin, in_map_iff. cbn.
    split; [intros [[] | (e & <- & He)]; now exists e
           | intros (e & He & <-); right; now exists e]. }
  assert (Hincl : incl
    (fold_left (fun acc c => if includes acc c then acc else (acc ++ [c])%list)
       (map (fun row => Category (cleaned row)) (data r)) []) validCategories).
  { intros c Hc. apply Hmem in Hc as (e & He & <-).
    assert (Hrec : In (cleaned e) (cleanData os rawData)).
    { rewrite <- Hd. apply in_map_iff. now exists e. }
    destruct (cleanData_provenance os rawData _ Hrec) as (i & row & _ & _ & Hc).
    apply cleanRow_Some in Hc as (_ & _ & _ & Hcat & _).
    now apply normalizeCategory_member in Hcat. }
  split; [exact Hnd |]. split; [exact Hmem |]. split; [exact Hincl |].
  change 7%nat with (length validCategories).
  now apply List.NoDup_incl_length.
Qed.

End Engineering.

(** *** On concrete rows *)

Lemma X9_witness :
  exists e,
    engineerRow no_log clean_minimal = Ok e /\
    Features.Is_Foreign e = 1%Z /\
    risk_level (predictRow (oracle 0) (scorerRow e)) = HIGH.
Proof.
  assert (H0 : (0 <= random (oracle 0))%Q) by (vm_compute; discriminate).
  assert (Hc : cleanRow (oracle 0) raw_minimal = Some clean_minimal) by reflexivity.
  destruct (X9_missing_location_is_high no_log (oracle 0) (oracle 0) raw_minimal
              clean_minimal Hc eq_refl H0) as (e & He & _ & Hf & Hr & _).
  exists e. repeat split; assumption.
Defined.

(** A location that holds "us" in any case is not foreign: Russia is as
    domestic as Houston. *)
Example us_inside_a_name :
  includes_text "us" (toLowerCase "Russia") = true /\
  includes_text "us" (toLowerCase "Houston, TX") = true /\
  includes_text "us" (toLowerCase "Paris") = false.
Proof. repeat split. Qed.

Lemma X10_witness :
  exists e,
    engineerRow no_log clean_early = Ok e /\
    (0.75 <= baseScore (oracle 0) (scorerRow e))%Q.
Proof.
  eexists. split; [reflexivity |].
  eapply (X10_time_rules_overlap no_log (oracle 0) clean_early);
    [reflexivity | discriminate | reflexivity | reflexivity].
Defined.

Lemma X12_witness :
  exists r,
    preprocessCSV no_log (fun _ => oracle 0) [raw_atm; raw_bad_amount; raw_minimal]
      = Done r /\
    avgAmount (stats r) = Fin (1520 / 2) /\
    categories (stats r) = ["ATM"; "Other"] /\
    js_gt (avgAmount (stats r)) (Fin 0) = true.
Proof.
  eexists. split; [reflexivity |]. split; [reflexivity |]. split; [reflexivity |].
  apply (X12_average_amount_positive no_log (fun _ => oracle 0)
           [raw_atm; raw_bad_amount; raw_minimal]).
  reflexivity.
Defined.

Lemma X13_witness :
  exists r,
    preprocessCSV no_log (fun _ => oracle 0) [raw_atm; raw_minimal; raw_crypto]
      = Done r /\
    (length (categories (stats r)) <= 7)%nat /\
    incl (categories (stats r)) validCategories.
Proof.
  destruct (preprocessCSV no_log (fun _ => oracle 0)
              [raw_atm; raw_minimal; raw_crypto]) as [r | e] eqn:Hr;
    [| vm_compute in Hr; discriminate Hr].
  exists r. split; [reflexivity |].
  destruct (X13_categories_of_statistics no_log (fun _ => oracle 0)
              [raw_atm; raw_minimal; raw_crypto] r Hr) as (_ & _ & Hi & Hl).
  split; assumption.
Defined.

End FeatureProps.

(** * Properties of the /process-csv handler *)

Module ServiceProps.

Import DataPreprocessor Features FraudDetectionModel DatabaseService Service.
Import DecimalHost Samples MoreSamples NumFacts.
Import NormalizerProps AlertProps ScorerExtra FeatureProps.

Lemma filter_length_mono {A : Type} (f g : A -> bool) (l : list A) :
  (forall x, In x l -> f x = true -> g x = true) ->
  (length (List.filter f l) <= length (List.filter g l))%nat.
Proof.
  induction l as [| a l IH]; intros Himp; [cbn; lia |].
  assert (IH' : (length (List.filter f l) <= length (List.filter g l))%nat).
  { apply IH. intros x Hx. apply Himp. now right. }
  cbn. destruct (f a) eqn:Ef.
  - rewrite (Himp a (or_introl eq_refl) Ef). cbn. lia.
  - destruct (g a); cbn; lia.
Qed.

Lemma map_imap {A B C : Type} (f : B -> C) (h : A -> C)
    (g : nat -> A -> B) (l : list A) :
  (forall i a, f (g i a) = h a) -> map f (imap g l) = map h l.
Proof.
  intros Hfg. revert g Hfg. induction l as [| a l IH]; intros g Hfg; [reflexivity |].
  rewrite imap_cons. cbn [map]. rewrite Hfg. f_equal.
  apply IH. intros i b. apply Hfg.
Qed.

Section Handler.
Context `{Host}.
Variable Math_log : jsnum -> jsnum.

Lemma prediction_origin (os : nat -> Oracle) (rows : list Row.t) (p : Prediction) :
  In p (ruleBasedPrediction os rows) -> exists i row, p = predictRow (os i) row.
Proof.
  unfold ruleBasedPrediction. intros Hp.
  apply list_elem_of_In, elem_of_lookup_imap in Hp as (i & row & -> & _).
  now exists i, row.
Qed.

Lemma transactionDocs_ids (os os' : nat -> Oracle) (rows : list Row.t) :
  map (fun doc : Doc => doc !! "Transaction_ID")
    (transactionDocs os (ruleBasedPrediction os' rows))
  = map (fun p => Some (VStr (Transaction_ID p))) (ruleBasedPrediction os' rows).
Proof.
  unfold transactionDocs. rewrite filter_all.
  - now apply map_imap.
  - intros doc Hdoc.
    apply list_elem_of_In, elem_of_lookup_imap in Hdoc as (i & p & -> & Hlook).
    apply list_elem_of_lookup_2, list_elem_of_In, prediction_origin in Hlook
      as (j & row & ->).
    change (transactionDoc (os i) (predictRow (os' j) row) !! "Transaction_ID")
      with (Some (VStr (Transaction_ID (predictRow (os' j) row)))).
    cbn [truthy]. apply negb_true_iff, String.eqb_neq, predictRow_has_id.
Qed.

(** X14.  In a successful answer of the handler the number of predictions
    is the number of cleaned rows, at most the number of rows read; the
    high-risk count is at most the fraud count, which is at most the number
    of predictions; and as many alerts are created as there are flagged
    predictions. *)
Theorem X14_counts_of_the_answer
    (osc oss osd : nat -> Oracle) (rawData : list RawRow) (resp : Response) :
  processCsv Math_log osc oss osd rawData = Done resp ->
  totalPredictions resp = res_cleanedRows resp /\
  (res_cleanedRows resp <= res_originalRows resp)%nat /\
  (highRiskTransactions resp <= fraudulentTransactions resp)%nat /\
  (fraudulentTransactions resp <= totalPredictions resp)%nat /\
  alertsCreated resp = fraudulentTransactions resp.
Proof.
  unfold processCsv.
  destruct (preprocessCSV Math_log osc rawData) as [pr | e] eqn:Hpr; [| discriminate].
  unfold saveTransactions. intros [= <-]. cbn.
  destruct (preprocessCSV_Done Math_log osc rawData pr Hpr)
    as (Hd & _ & Ho & Hc & _).
  pose proof (cleanData_length osc rawData) as Hlen.
  rewrite <- Hd, length_map in Hlen.
  split; [| split; [| split; [| split]]].
  - unfold predict, ruleBasedPrediction. now rewrite length_imap, length_map, Hc.
  - rewrite Hc, Ho. exact Hlen.
  - apply filter_length_mono. intros p Hp Hhigh.
    apply prediction_origin in Hp as (i & row & ->).
    rewrite <- alert_test_is_flag. unfold isAlert. now rewrite Hhigh.
  - apply filter_length_le.
  - unfold predict. rewrite alertDocs_of_scored, length_imap. f_equal.
    apply List.filter_ext_in. intros p Hp.
    apply prediction_origin in Hp as (i & row & ->).
    apply alert_test_is_flag.
Qed.

(** X15.  The identifiers that the handler reports as stored are the
    identifiers of the cleaned rows, one for each and in their order: no
    prediction is dropped on the way to the transactions collection and none
    gets another identifier. *)
Theorem X15_stored_identifiers
    (osc oss osd : nat -> Oracle) (rawData : list RawRow) (resp : Response) :
  processCsv Math_log osc oss osd rawData = Done resp ->
  transactionIds resp =
    map (fun rec => Some (VStr (DataPreprocessor.Transaction_ID rec)))
      (cleanData osc rawData).
Proof.
  unfold processCsv.
  destruct (preprocessCSV Math_log osc rawData) as [pr | e] eqn:Hpr; [| discriminate].
  unfold saveTransactions. intros [= <-]. cbn [transactionIds].
  destruct (preprocessCSV_Done Math_log osc rawData pr Hpr) as (Hd & _).
  unfold predict. rewrite transactionDocs_ids.
  rewrite <- (map_map Transaction_ID (fun t => Some (VStr t))).
  rewrite prediction_ids.
  - rewrite <- Hd, !map_map. reflexivity.
  - apply List.Forall_forall. intros row Hrow.
    apply in_map_iff in Hrow as (e & <- & He).
    cbn [scorerRow Row.Transaction_ID].
    assert (Hrec : In (cleaned e) (cleanData osc rawData)).
    { rewrite <- Hd. apply in_map_iff. now exists e. }
    destruct (cleanData_provenance osc rawData _ Hrec) as (i & raw & _ & _ & Hc).
    apply cleanRow_Some in Hc as (-> & _).
    apply normalizeTransactionId_nonempty.
Qed.

End Handler.

(** X17.  Every alert document that [saveTransactions] writes has its
    transaction document: a document of the transactions collection with the
    same identifier, tier and reason is written in the same call. *)
Theorem X17_alert_has_its_transaction
    (os : nat -> Oracle) (predictions : list Prediction) (alert : Doc) :
  In alert (snd (saveTransactions os predictions)) ->
  exists doc,
    In doc (fst (saveTransactions os predictions)) /\
    doc !! "Transaction_ID" = alert !! "Transaction_ID" /\
    doc !! "risk_level" = alert !! "risk_level" /\
    doc !! "reason" = alert !! "reason".
Proof.
  unfold saveTransactions, alertDocs, transactionDocs. cbn [fst snd].
  intros Ha. apply filter_In in Ha as [Ha Hid].
  apply list_elem_of_In, elem_of_lookup_imap in Ha as (i & p & -> & Hlook).
  apply list_elem_of_lookup_2, list_elem_of_In, filter_In in Hlook as [Hp _].
  apply list_elem_of_In, list_elem_of_lookup in Hp as [j Hj].
  exists (transactionDoc (os j) p). split; [| now repeat split].
  apply filter_In. split; [| exact Hid].
  apply list_elem_of_In.
  apply (elem_of_lookup_imap_2 (fun i pred => transactionDoc (os i) pred) _ _ _ Hj).
Qed.

Lemma X17_witness :
  exists doc,
    In doc (fst (saveTransactions (fun _ => oracle 0) [pred_high])) /\
    doc !! "Transaction_ID" = Some (VStr "T-1001").
Proof.
  assert (Ha : In (alertDoc (oracle 0) pred_high)
                 (snd (saveTransactions (fun _ => oracle 0) [pred_high])))
    by (left; reflexivity).
  destruct (X17_alert_has_its_transaction _ _ _ Ha) as (doc & Hd & Hid & _).
  exists doc. split; [exact Hd |]. rewrite Hid. reflexivity.
Defined.

Lemma X14_witness :
  exists resp,
    processCsv no_log (fun _ => oracle 0) (fun _ => oracle 0) (fun _ => oracle 0)
      [raw_atm; raw_bad_amount; raw_minimal] = Done resp /\
    totalPredictions resp = 2%nat /\
    alertsCreated resp = fraudulentTransactions resp.
Proof.
  destruct (processCsv no_log (fun _ => oracle 0) (fun _ => oracle 0)
              (fun _ => oracle 0) [raw_atm; raw_bad_amount; raw_minimal])
    as [resp | e] eqn:Hresp; [| vm_compute in Hresp; discriminate Hresp].
  exists resp. split; [reflexivity |].
  destruct (X14_counts_of_the_answer no_log _ _ _ _ resp Hresp)
    as (Ht & _ & _ & _ & Ha).
  split; [| exact Ha].
  rewrite Ht. vm_compute in Hresp. injection Hresp as <-. reflexivity.
Defined.

Lemma X15_witness :
  exists resp,
    processCsv no_log (fun _ => oracle 0) (fun _ => oracle 0) (fun _ => oracle 0)
      [raw_atm; raw_bad_amount; raw_minimal] = Done resp /\
    transactionIds resp = [Some (VStr "T-1001"); Some (VStr "T-2")].
Proof.
  destruct (processCsv no_log (fun _ => oracle 0) (fun _ => oracle 0)
              (fun _ => oracle 0) [raw_atm; raw_bad_amount; raw_minimal])
    as [resp | e] eqn:Hresp; [| vm_compute in Hresp; discriminate Hresp].
  exists resp. split; [reflexivity |].
  rewrite (X15_stored_identifiers no_log _ _ _ _ resp Hresp). reflexivity.
Defined.

End ServiceProps.

(** * Properties of the alert counts *)

Module AlertStatsProps.

Import AlertStats MoreSamples.

Local Abbreviation count_step :=
  (fun (acc : result (gmap string Z)) (stat : option jsval * Z) =>
     match acc with
     | Throw => Throw
     | Ok m =>
         match fst stat with
         | Some (VStr s) => Ok (<[toLowerCase s := snd stat]> m)
         | _ => Throw
         end
     end).

Lemma counts_after_throw (l : list (option jsval * Z)) :
  fold_left count_step l Throw = Throw.
Proof. induction l as [| st l IH]; [reflexivity | exact IH]. Qed.

Lemma counts_from (l : list (option jsval * Z)) (m0 : gmap string Z) :
  (fold_left count_step l (Ok m0) = Throw <->
   Exists (fun st => forall s, fst st <> Some (VStr s)) l) /\
  (forall m k, fold_left count_step l (Ok m0) = Ok m ->
     is_Some (m0 !! k) -> is_Some (m !! k)).
Proof.
  revert m0. induction l as [| st l IH]; intros m0.
  - split.
    + split; [discriminate | intros Hex; inversion Hex].
    + intros m k [= <-]. tauto.
  - cbn [fold_left]. rewrite Exists_cons.
    destruct (fst st) as [[s | n] |] eqn:Est.
    + destruct (IH (<[toLowerCase s := snd st]> m0)) as [Hthrow Hkeys].
      split.
      * rewrite Hthrow. split; [tauto |].
        intros [Hbad | Hex]; [now destruct (Hbad s) | exact Hex].
      * intros m k Hm Hk. apply (Hkeys m k Hm).
        destruct (decide (toLowerCase s = k)) as [<- | Hne].
        -- rewrite lookup_insert_eq. eauto.
        -- now rewrite lookup_insert_ne.
    + rewrite counts_after_throw. split.
      * split; [intros _; left; intros s; discriminate | reflexivity].
      * discriminate.
    + rewrite counts_after_throw. split.
      * split; [intros _; left; intros s; discriminate | reflexivity].
      * discriminate.
Qed.

(** X16.  The alert counts of the statistics fail exactly when the
    aggregation returned a group whose [_id] is not a text, as the group of
    the alerts without a status is (its [_id] is null).  Otherwise the counts
    hold an entry for each of open, closed and investigating. *)
Theorem X16_alert_counts (alertStats : list (option jsval * Z)) :
  (alertCounts alertStats = Throw <->
   Exists (fun st => forall s, fst st <> Some (VStr s)) alertStats) /\
  (forall m, alertCounts alertStats = Ok m ->
     is_Some (m !! "open") /\ is_Some (m !! "closed") /\
     is_Some (m !! "investigating")).
Proof.
  unfold alertCounts.
  destruct (counts_from alertStats
              (<["open" := 0%Z]> (<["closed" := 0%Z]> (<["investigating" := 0%Z]> ∅))))
    as [Hthrow Hkeys].
  split; [exact Hthrow |].
  intros m Hm. repeat split; apply (Hkeys m _ Hm); now eexists.
Qed.

(** Statuses are counted under their lower-case name; a collection whose
    alerts have no status makes the counts fail. *)
Example alert_counts_on_groups :
  (exists m, alertCounts groups_with_status = Ok m /\
             m !! "open" = Some 3%Z /\ m !! "investigating" = Some 1%Z /\
             m !! "closed" = Some 0%Z) /\
  alertCounts groups_without_status = Throw.
Proof.
  split; [| reflexivity].
  eexists. split; [reflexivity |]. repeat split.
Qed.

End AlertStatsProps.
